(** * KICS scan pipeline: a shallow embedding of [pkg/kics/service.go]
    and of the CloudFront TLS policy, with the values the test of the
    Helm resolver expects.

    Go values are modelled as follows.
    - [[]byte] is [list byte]; [string] is [string]; [int] is [Z].
    - [error] is the inductive [error]; a nil error is [None].
    - An [io.Reader] is a state machine: a current state and a [Read]
      function from a state and a buffer length to the bytes written, the
      error and the next state.
    - Closures that mutate captured variables ([files], the storage, the
      tracker) are functions that pass a [ScanState] explicitly.
    - A callee that is handed a pointer or a slice may write through it;
      what the memory holds after the call is a result of the call. *)

From Stdlib Require Import String Ascii.
From Stdlib Require Import Init.Byte Strings.Byte.
From Stdlib Require Import ZArith List Bool Lia.
Import ListNotations.

Local Open Scope string_scope.
Local Open Scope list_scope.
Local Open Scope Z_scope.

Set Implicit Arguments.

(** ** Errors *)

Module Errors.

(** [EOF] is [io.EOF]; [New] is [errors.New]; [WithMessage] is what
    [errors.Wrap] and [errors.Wrapf] build around a cause. *)
Inductive error : Type :=
| EOF : error
| New : string -> error
| WithMessage : string -> error -> error.

(** [errors.Wrap(err, msg)]: nil when [err] is nil. *)
Definition Wrap (err : option error) (message : string) : option error :=
  match err with
  | None => None
  | Some e => Some (WithMessage message e)
  end.

Definition is_EOF (e : error) : bool :=
  match e with
  | EOF => true
  | _ => false
  end.

End Errors.

Import Errors.

(** ** Readers *)

Module IO.

(** An [io.Reader].  [Read st n] is one call [rc.Read(p)] with
    [len(p) = n]: the [n'] bytes written to [p[:n']], the error, and the
    state of the reader afterwards. *)
Record Reader : Type := mkReader {
  rstate : Type;
  rcur : rstate;
  Read : rstate -> nat -> list byte * option error * rstate
}.

(** A reader over the bytes [bs] that fills the buffer whenever enough
    bytes remain, delivers the shorter remainder otherwise, and then
    answers [0, io.EOF]; this is how a regular file ([os.File]) or a
    [bytes.Reader] reads. *)
Definition fileRead (rem : list byte) (n : nat)
  : list byte * option error * list byte :=
  match rem with
  | [] => ([], Some EOF, [])
  | _ :: _ => (firstn n rem, None, skipn n rem)
  end.

Definition fileReader (bs : list byte) : Reader :=
  mkReader bs fileRead.

(** A reader over [bs] that never delivers more than [k] bytes per call
    (a pipe or a network stream); short reads are allowed by the
    [io.Reader] contract. *)
Definition shortRead (k : nat) (rem : list byte) (n : nat)
  : list byte * option error * list byte :=
  match rem with
  | [] => ([], Some EOF, [])
  | _ :: _ => (firstn (Nat.min k n) rem, None, skipn (Nat.min k n) rem)
  end.

Definition shortReader (k : nat) (bs : list byte) : Reader :=
  mkReader bs (shortRead k).

End IO.

Import IO.

(** ** [getContent] *)

Module GetContent.

(** How the [for] loop of [getContent] is left.  Each exit records the
    local variable [content] at that moment, which is what the function
    holds in memory when it returns. *)
Inductive loopExit : Type :=
| ExitEOF (content : list byte)
| ExitLimit (content : list byte)
| ExitErr (err : error) (content : list byte)
| ExitFuel.

Section Loop.

Variable RS : Type.
Variable read : RS -> nat -> list byte * option error * RS.

(** [capData] is [cap(data)]; every iteration re-slices [data] to it
    before reading. *)
Variable capData : nat.

(** [n, err := rc.Read(data)] followed by [data[:n]].  The contract of
    [io.Reader], [0 <= n <= len(p)], is built into the call: a reader
    cannot write past the buffer it is handed, so only the first
    [len(p)] bytes of what the model reader offers are taken. *)
Definition callRead (st : RS) : list byte * option error * RS :=
  let '(d, err, st') := read st capData in (firstn capData d, err, st').

Fixpoint getContent_loop (fuel : nat) (maxSizeMB : Z) (st : RS)
                         (content : list byte) : loopExit :=
  match fuel with
  | O => ExitFuel
  | S fuel' =>
      if maxSizeMB <? 0 then ExitLimit content
      else
        match callRead st with
        | (_, Some err, _) =>
            if is_EOF err then ExitEOF content else ExitErr err content
        | (d, None, st') =>
            getContent_loop fuel' (maxSizeMB - 1) st' (content ++ d)
        end
  end.

End Loop.

Definition chunkSize : nat := Z.to_nat 1048576.

(** The loop as [getContent] starts it: [maxSizeMB := 5], [content] nil,
    a buffer of 1048576 bytes.  Seven iterations are the most the
    counter allows ([getContent_exit_total]). *)
Definition getContent_exit (rc : Reader) : loopExit :=
  getContent_loop (Read rc) chunkSize 7 5 (rcur rc) [].

Definition errLimit : error := New "file size limit exceeded".

Definition errFuel : error := New "getContent: loop not finished".

(** [getContent]: the returned slice and the error.  [ExitFuel] is not a
    Go outcome and is never reached ([getContent_exit_total]). *)
Definition getContent (rc : Reader) : list byte * option error :=
  match getContent_exit rc with
  | ExitEOF content => (content, None)
  | ExitLimit _ => ([], Some errLimit)
  | ExitErr err _ => ([], Some err)
  | ExitFuel => ([], Some errFuel)
  end.

(** The cap the specification names: 5 MiB. *)
Definition maxSize : nat := (5 * chunkSize)%nat.

End GetContent.

Import GetContent.


(** ** The data model ([pkg/model]) *)

Module Model.

(** Modelled from the spec: the declaration of [model.FileKind] is not
    among the sources; the kinds are the ones the specification
    enumerates (Terraform, Kubernetes, CloudFormation, Ansible,
    Dockerfile, Helm, Common). *)
Inductive FileKind : Type :=
| KindTerraform
| KindKubernetes
| KindCloudFormation
| KindAnsible
| KindDockerfile
| KindHELM
| KindCOMMON.

Definition FileKind_eqb (a b : FileKind) : bool :=
  match a, b with
  | KindTerraform, KindTerraform
  | KindKubernetes, KindKubernetes
  | KindCloudFormation, KindCloudFormation
  | KindAnsible, KindAnsible
  | KindDockerfile, KindDockerfile
  | KindHELM, KindHELM
  | KindCOMMON, KindCOMMON => true
  | _, _ => false
  end.

(** A parsed value: what [interface{}] holds after parsing, and what a
    policy sees as JSON. *)
#[local] Unset Elimination Schemes.
Inductive Value : Type :=
| VNull
| VBool (b : bool)
| VNumber (n : Z)
| VString (s : string)
| VArray (items : list Value)
| VObject (fields : list (string * Value)).
#[local] Set Elimination Schemes.

(** [model.Document] is [map[string]interface{}]. *)
Definition Document : Type := list (string * Value).

(** [IDInfo] is [map[int]interface{}] whose values are [map[int]int]:
    per split id, rendered line index to original line index. *)
Definition IDInfoMap : Type := list (Z * list (Z * Z)).

(** The fields of [model.FileMetadata] that the sources set or read.  A
    field left out of a Go composite literal holds its zero value: the
    empty string, the nil map. *)
Record FileMetadata : Type := mkFileMetadata {
  ID : string;
  ScanID : string;
  Document_ : Document;
  OriginalData : string;
  Kind : FileKind;
  FileName : string;
  Content : string;
  HelmID : string;
  IDInfo : IDInfoMap
}.

(** [model.RenderedFile] and [model.RenderedFiles], as the resolve sink
    and [TestHelm_Resolve] use them. *)
Record RenderedFile : Type := mkRenderedFile {
  SplitID : string;
  rFileName : string;
  rContent : list byte;
  rOriginalData : list byte;
  rIDInfo : IDInfoMap
}.

Record RenderedFiles : Type := mkRenderedFiles {
  File : list RenderedFile
}.

End Model.

Import Model.

(** ** The scan service ([pkg/kics/service.go]) *)

Module Service.

(** What the closures of [StartScan] share and mutate: the local
    [files], the storage behind [s.Storage], the two counters behind
    [s.Tracker], and how many identifiers [uuid.New] has handed out. *)
Record ScanState (St : Type) : Type := mkScanState {
  files : list FileMetadata;
  storage : St;
  found : nat;
  parsed : nat;
  ids : nat
}.

Arguments mkScanState {St} _ _ _ _ _.
Arguments files {St} _.
Arguments storage {St} _.
Arguments found {St} _.
Arguments parsed {St} _.
Arguments ids {St} _.

Section WithService.

(** The collaborators of [Service], each an interface or a package
    whose code is not part of this file. *)

(** [Storage]: a state and the two save operations. *)
Variable St : Type.
Variable Vulnerability : Type.
Variable SaveFile : St -> FileMetadata -> option error * St.
Variable SaveVulnerabilities : St -> list Vulnerability -> option error * St.

(** [SaveFile] is handed [&file]: what the struct behind the pointer
    holds when the call returns.  A storage that only reads the
    metadata leaves it as it was. *)
Variable SaveFileLeaves : St -> FileMetadata -> FileMetadata.

(** [Parser]. *)
Variable SupportedExtensions : list string.
Variable Parse : string -> list byte -> list Document * FileKind * option error.

(** [Parse] is handed the slice itself: the bytes the slice holds when
    the call returns.  A parser that only reads leaves them as they
    were. *)
Variable ParseLeaves : string -> list byte -> list byte.

(** [Resolver]. *)
Variable GetType : string -> FileKind.
Variable Resolve : string -> FileKind -> RenderedFiles * option error.

(** [Inspector] and [SourceProvider.GetBasePath]. *)
Variable Inspect :
  string -> list FileMetadata -> bool -> string ->
  list Vulnerability * option error.
Variable GetBasePath : string.

(** [SourceProvider.GetSources]: it is handed the two sinks and decides
    which files to feed them and what to do with their errors.  It can
    reach the caller's variables only through the sinks, hence the
    quantification over the state type. *)
Variable GetSources :
  forall T : Type,
    list string ->
    (string -> Reader -> T -> option error * T) ->
    (string -> T -> option error * T) ->
    T -> option error * T.

(** [json.Marshal(document)], of which only the error is used, and
    [uuid.New().String()] for the [n]-th identifier. *)
Variable jsonMarshal : Document -> option error.
Variable uuid : nat -> string.

Local Abbreviation State := (ScanState St).

Definition TrackFileFound (s : State) : State :=
  mkScanState (files s) (storage s) (S (found s)) (parsed s) (ids s).

Definition TrackFileParse (s : State) : State :=
  mkScanState (files s) (storage s) (found s) (S (parsed s)) (ids s).

Definition uuidNew (s : State) : string * State :=
  (uuid (ids s),
   mkScanState (files s) (storage s) (found s) (parsed s) (S (ids s))).

(** [saveToFile]: the file joins [files] only when [SaveFile] returned
    nil; its error is not returned.  What is appended is [*file] as it
    is after the call. *)
Definition saveToFile (file : FileMetadata) (s : State) : State :=
  let '(err, st') := SaveFile (storage s) file in
  let file' := SaveFileLeaves (storage s) file in
  let s' := mkScanState (files s) st' (found s) (parsed s) (ids s) in
  match err with
  | None =>
      TrackFileParse
        (mkScanState (files s' ++ [file']) (storage s') (found s') (parsed s')
                     (ids s'))
  | Some _ => s'
  end.

(** The loop over [documents] in the parse sink.  [err] is the variable
    of the enclosing function that [json.Marshal] overwrites; [content]
    is [*content] as it is after [Parse]. *)
Fixpoint parseDocuments (scanID filename : string) (content : list byte)
    (kind : FileKind) (documents : list Document)
    (err : option error) (s : State) : option error * State :=
  match documents with
  | [] => (err, s)
  | document :: rest =>
      match jsonMarshal document with
      | Some e =>
          parseDocuments scanID filename content kind rest (Some e) s
      | None =>
          let '(id, s1) := uuidNew s in
          let file :=
            mkFileMetadata id scanID document (string_of_list_byte content)
                           kind filename EmptyString EmptyString [] in
          parseDocuments scanID filename content kind rest None
                         (saveToFile file s1)
      end
  end.

(** The first sink of [StartScan], for files parsed directly. *)
Definition parseSink (scanID filename : string) (rc : Reader) (s : State)
  : option error * State :=
  let s := TrackFileFound s in
  match getContent rc with
  | (_, Some err) =>
      (Some (WithMessage ("failed to get file content: " ++ filename)%string err),
       s)
  | (content, None) =>
      match Parse filename content with
      | (_, _, Some err) =>
          (Some (WithMessage "failed to parse file content" err), s)
      | (documents, kind, None) =>
          let '(err, s') :=
            parseDocuments scanID filename (ParseLeaves filename content)
                           kind documents None s in
          (Wrap err "failed to save file content", s')
      end
  end.

(** The loop over [documents] of one rendered file in the resolve sink
    ([err] there is local to the loop over rendered files and is not
    read afterwards).  [rfile.Content] is read after [Parse] had the
    slice. *)
Fixpoint resolveDocuments (scanID : string) (kind : FileKind)
    (rfile : RenderedFile) (documents : list Document) (s : State) : State :=
  match documents with
  | [] => s
  | document :: rest =>
      match jsonMarshal document with
      | Some _ => resolveDocuments scanID kind rfile rest s
      | None =>
          let '(id, s1) := uuidNew s in
          let file :=
            mkFileMetadata id scanID document
                           (string_of_list_byte (rOriginalData rfile))
                           kind (rFileName rfile)
                           (string_of_list_byte
                              (ParseLeaves (rFileName rfile) (rContent rfile)))
                           (SplitID rfile) (rIDInfo rfile) in
          resolveDocuments scanID kind rfile rest (saveToFile file s1)
      end
  end.

(** The loop over [resFiles.File]. *)
Fixpoint resolveFiles (scanID : string) (kind : FileKind)
    (rfiles : list RenderedFile) (s : State) : option error * State :=
  match rfiles with
  | [] => (None, s)
  | rfile :: rest =>
      match Parse (rFileName rfile) (rContent rfile) with
      | (_, _, Some err) =>
          (Some (WithMessage "failed to parse file content" err), s)
      | (documents, _, None) =>
          resolveFiles scanID kind rest
                       (resolveDocuments scanID kind rfile documents s)
      end
  end.

(** The second sink of [StartScan], for resolver files and templates. *)
Definition resolveSink (scanID filename : string) (s : State)
  : option error * State :=
  let s := TrackFileFound s in
  let kind := GetType filename in
  if FileKind_eqb kind KindCOMMON then (None, s)
  else
    match Resolve filename kind with
    | (_, Some err) =>
        (Some (WithMessage "failed to render file content" err), s)
    | (resFiles, None) => resolveFiles scanID kind (File resFiles) s
    end.

(** The composite literal of the resolve sink, for a rendered file. *)
Definition builtFrom (scanID : string) (kind : FileKind) (rfile : RenderedFile)
    (f : FileMetadata) : Prop :=
  exists id document,
    f = mkFileMetadata id scanID document
          (string_of_list_byte (rOriginalData rfile)) kind (rFileName rfile)
          (string_of_list_byte
             (ParseLeaves (rFileName rfile) (rContent rfile)))
          (SplitID rfile) (rIDInfo rfile).

(** An entry of the list is what [SaveFile] left of a struct with the
    property [P]. *)
Definition leftOf (P : FileMetadata -> Prop) (f : FileMetadata) : Prop :=
  exists st file, P file /\ f = SaveFileLeaves st file.

(** The storage does not write to the metadata it is handed; the parser
    does not write to the bytes it is handed. *)
Definition readsOnly : Prop := forall st file, SaveFileLeaves st file = file.

Definition parsesOnly : Prop :=
  forall filename content, ParseLeaves filename content = content.

(** [SaveFile] leaves the [ID] of the struct it is handed as it is. *)
Definition keepsID : Prop :=
  forall st file, ID (SaveFileLeaves st file) = ID file.

(** What the composite literal of the resolve sink gives a struct that
    comes from one of the rendered files: the kind of the chart, and
    the marker and the line map of the rendered file. *)
Definition fromRendering (kind : FileKind) (rfiles : list RenderedFile)
    (f : FileMetadata) : Prop :=
  Kind f = kind
  /\ exists rfile,
       In rfile rfiles /\ HelmID f = SplitID rfile /\ IDInfo f = rIDInfo rfile.

(** What the composite literal of the parse sink gives a struct: the
    text as [OriginalData], and the zero values of [Content], [HelmID]
    and [IDInfo]. *)
Definition directLiteral (text : string) (f : FileMetadata) : Prop :=
  Content f = EmptyString
  /\ OriginalData f = text
  /\ HelmID f = EmptyString
  /\ IDInfo f = [].

(** The parser accepts the rendered file. *)
Definition parses (rfile : RenderedFile) : Prop :=
  snd (Parse (rFileName rfile) (rContent rfile)) = None.

(** [StartScan]. *)
Definition StartScan (scanID : string) (hideProgress : bool) (s : State)
  : option error * State :=
  match GetSources SupportedExtensions (parseSink scanID)
                   (resolveSink scanID) s with
  | (Some err, s1) => (Some (WithMessage "failed to read sources" err), s1)
  | (None, s1) =>
      match Inspect scanID (files s1) hideProgress GetBasePath with
      | (_, Some err) =>
          (Some (WithMessage "failed to inspect files" err), s1)
      | (vulnerabilities, None) =>
          let '(err, st') := SaveVulnerabilities (storage s1) vulnerabilities in
          (Wrap err "failed to save vulnerabilities",
           mkScanState (files s1) st' (found s1) (parsed s1) (ids s1))
      end
  end.

End WithService.

(** A source provider over a fixed list of sources, for running the
    service on concrete inputs.  It hands every [SrcFile] to the parse
    sink and every [SrcDir] to the resolve sink, in order, and returns
    the first sink error it meets. *)
Inductive Source : Type :=
| SrcFile (filename : string) (rc : Reader)
| SrcDir (filename : string).

Fixpoint listSources (sources : list Source) (T : Type)
    (extensions : list string)
    (sink : string -> Reader -> T -> option error * T)
    (resolverSink : string -> T -> option error * T)
    (t : T) : option error * T :=
  match sources with
  | [] => (None, t)
  | src :: rest =>
      let '(err, t') :=
        match src with
        | SrcFile filename rc => sink filename rc t
        | SrcDir filename => resolverSink filename t
        end in
      match err with
      | Some e => (Some e, t')
      | None => listSources rest extensions sink resolverSink t'
      end
  end.

End Service.

Import Service.

(** ** Text helpers *)

Module Text.

Definition dq : string := String (ascii_of_nat 34) EmptyString.
Definition nl : ascii := ascii_of_nat 10.

Notation "s +++ t" := (String.append s t)
  (at level 60, right associativity) : string_scope.

(** [strings.Join(pieces, sep)] for a one-character separator. *)
Fixpoint join (sep : ascii) (pieces : list string) : string :=
  match pieces with
  | [] => EmptyString
  | [piece] => piece
  | piece :: rest => piece +++ String sep (join sep rest)
  end.

Definition unlines (ls : list string) : string := join nl ls.

Fixpoint hasSuffix (suffix s : string) : bool :=
  String.eqb s suffix ||
  match s with
  | EmptyString => false
  | String _ rest => hasSuffix suffix rest
  end.

End Text.

Import Text.

(** ** The expected values of [TestHelm_Resolve]

    The Helm resolver itself is not among the sources; its test states
    what [Resolve] is to return on three fixture directories, compared
    with [reflect.DeepEqual].  Each text is given by its lines, the
    pieces between newlines of the Go raw string.  The values serve as
    inputs of the resolve sink below. *)

Module HelmResolveTest.

Definition service_yaml_Content : list string :=
  [
   EmptyString;
   "# Source: test_helm/templates/service.yaml";
   "# KICS_HELM_ID_0:";
   "apiVersion: v1";
   "kind: Service";
   "metadata:";
   "  name: RELEASE-NAME-test_helm";
   "  labels:";
   "    helm.sh/chart: test_helm-0.1.0";
   "    app.kubernetes.io/name: test_helm";
   "    app.kubernetes.io/instance: RELEASE-NAME";
   "    app.kubernetes.io/version: " +++ dq +++ "1.16.0" +++ dq;
   "    app.kubernetes.io/managed-by: Helm";
   "spec:";
   "  type: ClusterIP";
   "  ports:";
   "    - port: 80";
   "      targetPort: http";
   "      protocol: TCP";
   "      name: http";
   "  selector:";
   "    app.kubernetes.io/name: test_helm";
   "    app.kubernetes.io/instance: RELEASE-NAME";
   EmptyString
  ].

Definition service_yaml_OriginalData : list string :=
  [
   "# KICS_HELM_ID_0:";
   "apiVersion: v1";
   "kind: Service";
   "metadata:";
   "  name: {{ include " +++ dq +++ "test_helm.fullname" +++ dq +++ " . }}";
   "  labels:";
   "    {{- include " +++ dq +++ "test_helm.labels" +++ dq +++ " . | nindent 4 }}";
   "spec:";
   "  type: {{ .Values.service.type }}";
   "  ports:";
   "    - port: {{ .Values.service.port }}";
   "      targetPort: http";
   "      protocol: TCP";
   "      name: http";
   "  selector:";
   "    {{- include " +++ dq +++ "test_helm.selectorLabels" +++ dq +++ " . | nindent 4 }}";
   EmptyString
  ].

Definition serviceaccount_yaml_Content : list string :=
  [
   EmptyString;
   "# Source: test_helm_subchart/templates/serviceaccount.yaml";
   "# KICS_HELM_ID_1:";
   "apiVersion: v1";
   "kind: ServiceAccount";
   "metadata:";
   "  name: RELEASE-NAME-test_helm_subchart";
   "  labels:";
   "    helm.sh/chart: test_helm_subchart-0.1.0";
   "    app.kubernetes.io/name: test_helm_subchart";
   "    app.kubernetes.io/instance: RELEASE-NAME";
   "    app.kubernetes.io/version: " +++ dq +++ "1.16.0" +++ dq;
   "    app.kubernetes.io/managed-by: Helm";
   EmptyString
  ].

Definition serviceaccount_yaml_OriginalData : list string :=
  [
   "{{- if .Values.serviceAccount.create -}}";
   "# KICS_HELM_ID_1:";
   "apiVersion: v1";
   "kind: ServiceAccount";
   "metadata:";
   "  name: {{ include " +++ dq +++ "test_helm_subchart.serviceAccountName" +++ dq +++ " . }}";
   "  labels:";
   "    {{- include " +++ dq +++ "test_helm_subchart.labels" +++ dq +++ " . | nindent 4 }}";
   "  {{- with .Values.serviceAccount.annotations }}";
   "  annotations:";
   "    {{- toYaml . | nindent 4 }}";
   "  {{- end }}";
   "{{- end }}";
   EmptyString
  ].

Definition subchart_service_yaml_Content : list string :=
  [
   EmptyString;
   "# Source: test_helm_subchart/charts/subchart/templates/service.yaml";
   "# KICS_HELM_ID_0:";
   "apiVersion: v1";
   "kind: Service";
   "metadata:";
   "  name: RELEASE-NAME-subchart";
   "  labels:";
   "    helm.sh/chart: subchart-0.1.0";
   "    app.kubernetes.io/name: subchart";
   "    app.kubernetes.io/instance: RELEASE-NAME";
   "    app.kubernetes.io/version: " +++ dq +++ "1.16.0" +++ dq;
   "    app.kubernetes.io/managed-by: Helm";
   "spec:";
   "  type: ClusterIP";
   "  ports:";
   "    - port: 80";
   "      targetPort: http";
   "      protocol: TCP";
   "      name: http";
   "  selector:";
   "    app.kubernetes.io/name: subchart";
   "    app.kubernetes.io/instance: RELEASE-NAME";
   EmptyString
  ].

Definition subchart_service_yaml_OriginalData : list string :=
  [
   "# KICS_HELM_ID_0:";
   "apiVersion: v1";
   "kind: Service";
   "metadata:";
   "  name: {{ include " +++ dq +++ "subchart.fullname" +++ dq +++ " . }}";
   "  labels:";
   "    {{- include " +++ dq +++ "subchart.labels" +++ dq +++ " . | nindent 4 }}";
   "spec:";
   "  type: {{ .Values.service.type }}";
   "  ports:";
   "    - port: {{ .Values.service.port }}";
   "      targetPort: http";
   "      protocol: TCP";
   "      name: http";
   "  selector:";
   "    {{- include " +++ dq +++ "subchart.selectorLabels" +++ dq +++ " . | nindent 4 }}";
   EmptyString
  ].


Definition bytesOfLines (ls : list string) : list byte :=
  list_byte_of_string (unlines ls).

(** [want] of the case [test_resolve_helm].  The literal names no
    [IDInfo], so the expected value holds the nil map. *)
Definition want_test_resolve_helm : RenderedFiles :=
  mkRenderedFiles
    [ mkRenderedFile
        "# KICS_HELM_ID_0:"
        "../../../test/fixtures/test_helm/templates/service.yaml"
        (bytesOfLines service_yaml_Content)
        (bytesOfLines service_yaml_OriginalData)
        [] ].

(** [want] and [wantErr] of the case [err_resolve]. *)
Definition want_err_resolve : RenderedFiles := mkRenderedFiles [].
Definition wantErr_err_resolve : bool := true.

(** [want] of the case [test_with_dependecies]. *)
Definition want_test_with_dependecies : RenderedFiles :=
  mkRenderedFiles
    [ mkRenderedFile
        "# KICS_HELM_ID_1:"
        "../../../test/fixtures/test_helm_subchart/templates/serviceaccount.yaml"
        (bytesOfLines serviceaccount_yaml_Content)
        (bytesOfLines serviceaccount_yaml_OriginalData)
        [];
      mkRenderedFile
        "# KICS_HELM_ID_0:"
        "../../../test/fixtures/test_helm_subchart/charts/subchart/templates/service.yaml"
        (bytesOfLines subchart_service_yaml_Content)
        (bytesOfLines subchart_service_yaml_OriginalData)
        [] ].

End HelmResolveTest.

(** ** The CloudFront TLS policy (Rego)

    A Rego reference is undefined when a step of its path is missing;
    an undefined value is [None].  A rule body holds for a binding of
    its variables when every expression of it is defined and not
    [false]; [not e] holds when [e] is undefined or [false].  A
    reference that is the argument of a call is evaluated before the
    call, also when the call stands under [not]: when the reference is
    undefined the body fails, it is not the negation that succeeds. *)

Module CloudFrontPolicy.

Fixpoint lookupField (k : string) (fields : list (string * Value))
  : option Value :=
  match fields with
  | [] => None
  | (k', v) :: rest => if String.eqb k k' then Some v else lookupField k rest
  end.

(** [v.k]. *)
Definition field (k : string) (v : Value) : option Value :=
  match v with
  | VObject fields => lookupField k fields
  | _ => None
  end.

(** [v.k1.k2...]. *)
Fixpoint path (ks : list string) (v : Value) : option Value :=
  match ks with
  | [] => Some v
  | k :: rest =>
      match field k v with
      | Some v' => path rest v'
      | None => None
      end
  end.

Fixpoint numbered (i : Z) (items : list Value) : list (Value * Value) :=
  match items with
  | [] => []
  | x :: rest => (VNumber i, x) :: numbered (i + 1) rest
  end.

(** The fields of an object as the reference sees them: a key that is
    repeated in the list stands for its first binding only. *)
Fixpoint bindings (seen : list string) (fields : list (string * Value))
  : list (Value * Value) :=
  match fields with
  | [] => []
  | (k, v) :: rest =>
      if existsb (String.eqb k) seen then bindings seen rest
      else (VString k, v) :: bindings (k :: seen) rest
  end.

(** [v[x]] with [x] unbound: every key of an object, every index of an
    array, with the value found there. *)
Definition iterate (v : Value) : list (Value * Value) :=
  match v with
  | VObject fields => bindings [] fields
  | VArray items => numbered 0 items
  | _ => []
  end.

(** [checkMinProtocolVersion]: defined, with value [true], on the two
    strings of its clauses, and undefined elsewhere. *)
Definition checkMinProtocolVersion (v : Value) : option Value :=
  match v with
  | VString s =>
      if String.eqb s "TLSv1.1" then Some (VBool true)
      else if String.eqb s "TLSv1.2" then Some (VBool true)
      else None
  | _ => None
  end.

(** A body expression holds when it is defined and not [false]. *)
Definition holds (e : option Value) : bool :=
  match e with
  | Some (VBool false) => false
  | Some _ => true
  | None => false
  end.

(** [x == false]. *)
Definition equalsFalse (x : option Value) : option Value :=
  match x with
  | Some (VBool false) => Some (VBool true)
  | Some _ => Some (VBool false)
  | None => None
  end.

(** The object a rule body builds for [result]. *)
Record Result : Type := mkResult {
  documentId : Value;
  searchKey : string;
  issueType : string;
  keyExpectedValue : string;
  keyActualValue : string
}.

(** Equality of values and of results, by which a set keeps one of two
    equal members. *)
Fixpoint Value_eqb (a b : Value) : bool :=
  match a, b with
  | VNull, VNull => true
  | VBool x, VBool y => Bool.eqb x y
  | VNumber x, VNumber y => Z.eqb x y
  | VString x, VString y => String.eqb x y
  | VArray xs, VArray ys =>
      (fix items (xs ys : list Value) : bool :=
         match xs, ys with
         | [], [] => true
         | x :: xs', y :: ys' => Value_eqb x y && items xs' ys'
         | _, _ => false
         end) xs ys
  | VObject fs, VObject gs =>
      (fix fields (fs gs : list (string * Value)) : bool :=
         match fs, gs with
         | [], [] => true
         | (k, x) :: fs', (l, y) :: gs' =>
             String.eqb k l && Value_eqb x y && fields fs' gs'
         | _, _ => false
         end) fs gs
  | _, _ => false
  end.

Definition Result_eqb (r r' : Result) : bool :=
  Value_eqb (documentId r) (documentId r')
  && String.eqb (searchKey r) (searchKey r')
  && String.eqb (issueType r) (issueType r')
  && String.eqb (keyExpectedValue r) (keyExpectedValue r')
  && String.eqb (keyActualValue r) (keyActualValue r').

(** The members of the set that the listed results make up. *)
Fixpoint members (rs : list Result) : list Result :=
  match rs with
  | [] => []
  | r :: rest =>
      if existsb (Result_eqb r) rest then members rest
      else r :: members rest
  end.

Section WithSprintf.

(** [sprintf] with the verb [%s]: a string argument is printed as it
    is; how the builtin prints a key that is not a string (the index of
    an array) is left open. *)
Variable sprintOther : Value -> string.

Definition sprint (v : Value) : string :=
  match v with
  | VString s => s
  | other => sprintOther other
  end.

Definition keySuffix : string :=
  "viewer_certificate.minimum_protocol_version".

(** The search key the rule prints for the distribution [name]. *)
Definition keyOf (name : Value) : string :=
  "resource.aws_cloudfront_distribution[" +++ sprint name
    +++ "]." +++ keySuffix.

(** The body of [CxPolicy[result]] for one binding of [i] (the document
    [document] found there) and of [name] (the resource found there).
    The argument of [checkMinProtocolVersion] is looked up first; the
    negated call is made on its value. *)
Definition CxPolicy_body (document name resource : Value) : option Result :=
  if holds (equalsFalse
              (path ["viewer_certificate"; "cloudfront_default_certificate"]
                    resource))
  then
    match path ["viewer_certificate"; "minimum_protocol_version"] resource with
    | None => None
    | Some version =>
        if negb (holds (checkMinProtocolVersion version))
        then
          match field "id" document with
          | Some id =>
              Some (mkResult
                      id
                      ("resource.aws_cloudfront_distribution[" +++ sprint name
                         +++ "]." +++ keySuffix)
                      "IncorrectValue"
                      ("resource.aws_cloudfront_distribution[" +++ sprint name
                         +++ "]." +++ keySuffix +++ " is TLSv1.1 or TLSv1.2")
                      ("resource.aws_cloudfront_distribution[" +++ sprint name
                         +++ "]." +++ keySuffix
                         +++ " isn't TLSv1.1 or TLSv1.2"))
          | None => None
          end
        else None
    end
  else None.

(** The resources [input.document[i].resource.aws_cloudfront_distribution[name]]
    of one document. *)
Definition distributions (document : Value) : list (Value * Value) :=
  match path ["resource"; "aws_cloudfront_distribution"] document with
  | Some ds => iterate ds
  | None => []
  end.

Definition optionToList (A : Type) (o : option A) : list A :=
  match o with
  | Some x => [x]
  | None => []
  end.

(** The findings one document contributes. *)
Definition CxPolicy_document (document : Value) : list Result :=
  flat_map (fun nr => optionToList (CxPolicy_body document (fst nr) (snd nr)))
           (distributions document).

(** [CxPolicy]: the set of results over all bindings of [i] and [name],
    as the list of its members. *)
Definition CxPolicy (input : Value) : list Result :=
  match field "document" input with
  | Some documents =>
      members
        (flat_map (fun id => CxPolicy_document (snd id)) (iterate documents))
  | None => []
  end.

End WithSprintf.

(** The scenario S2: one distribution with the default certificate
    switched off and the minimum protocol version [TLSv1]. *)
Definition distribution (version : Value) : Value :=
  VObject
    [("enabled", VBool true);
     ("viewer_certificate",
      VObject [("cloudfront_default_certificate", VBool false);
               ("minimum_protocol_version", version)])].

Definition documentWith (version : Value) : Value :=
  VObject
    [("id", VString "doc-1");
     ("resource",
      VObject [("aws_cloudfront_distribution",
                VObject [("positive1", distribution version)])])].

Definition inputWith (version : Value) : Value :=
  VObject [("document", VArray [documentWith version])].

(** The same distribution without [minimum_protocol_version], and the
    document of the scenario without its [id]. *)
Definition distributionUnversioned : Value :=
  VObject
    [("enabled", VBool true);
     ("viewer_certificate",
      VObject [("cloudfront_default_certificate", VBool false)])].

Definition inputUnversioned : Value :=
  VObject
    [("document",
      VArray
        [VObject
           [("id", VString "doc-1");
            ("resource",
             VObject [("aws_cloudfront_distribution",
                       VObject [("positive1", distributionUnversioned)])])]])].

Definition inputWithoutId : Value :=
  VObject
    [("document",
      VArray
        [VObject
           [("resource",
             VObject [("aws_cloudfront_distribution",
                       VObject [("positive1",
                                 distribution (VString "TLSv1"))])])]])].

(** Every key of the scenario is a string, so nothing else is ever
    printed there. *)
Definition sprintNothing (v : Value) : string := EmptyString.

End CloudFrontPolicy.

(** ** Concrete collaborators

    Storage, parser, resolver and inspector instances on which the
    service is run in the examples below. *)

Module Examples.

Import HelmResolveTest.

(** A storage that keeps what it is given, and one that is down. *)
Definition Store : Type := list FileMetadata.

Definition saveFileOk (st : Store) (f : FileMetadata) : option error * Store :=
  (None, st ++ [f]).

Definition errDown : error := New "storage unavailable".

Definition saveFileDown (st : Store) (f : FileMetadata)
  : option error * Store :=
  (Some errDown, st).

Definition saveVulnerabilitiesOk (st : Store) (vs : list unit)
  : option error * Store :=
  (None, st).

Definition saveVulnerabilitiesDown (st : Store) (vs : list unit)
  : option error * Store :=
  (Some errDown, st).

(** A storage that does not write to the metadata it is handed, and a
    parser that does not write to the bytes it is handed. *)
Definition keepFile (st : Store) (f : FileMetadata) : FileMetadata := f.

Definition keepBytes (filename : string) (content : list byte) : list byte :=
  content.

(** A storage that writes to the struct behind the pointer: it gives
    every file the same [ID] and fills in [Content]. *)
Definition stampFile (st : Store) (f : FileMetadata) : FileMetadata :=
  mkFileMetadata "fixed-id" (ScanID f) (Document_ f) (OriginalData f)
                 (Kind f) (FileName f) "set by storage" (HelmID f) (IDInfo f).

(** A parser that finds one document in every file, and one that
    rejects the file named [bad]. *)
Definition pod : Document := [("kind", VString "Pod")].

Definition parseOne (filename : string) (content : list byte)
  : list Document * FileKind * option error :=
  ([pod], KindKubernetes, None).

Definition errMalformed : error := New "malformed YAML".

Definition parseUnless (bad filename : string) (content : list byte)
  : list Document * FileKind * option error :=
  if String.eqb filename bad then ([], KindCOMMON, Some errMalformed)
  else ([pod], KindKubernetes, None).

(** Resolvers: every directory is a Helm chart; [Resolve] returns a
    fixed rendering, or fails as the case [err_resolve] expects. *)
Definition helmType (filename : string) : FileKind := KindHELM.

Definition resolveTo (rendering : RenderedFiles) (filename : string)
    (kind : FileKind) : RenderedFiles * option error :=
  (rendering, None).

Definition errRender : error := New "failed to render helm chart".

Definition resolveFails (filename : string) (kind : FileKind)
  : RenderedFiles * option error :=
  (want_err_resolve, Some errRender).

Definition inspectNothing (scanID : string) (fs : list FileMetadata)
    (hideProgress : bool) (basePath : string) : list unit * option error :=
  ([], None).

Definition marshalOk (d : Document) : option error := None.

Definition uuidOf (n : nat) : string :=
  "uuid-" +++ String (ascii_of_nat (48 + n)) EmptyString.

Definition start : ScanState Store := mkScanState [] [] 0 0 0.

Definition main_tf : list byte :=
  list_byte_of_string "resource {}".

Definition seven_bytes : list byte :=
  list_byte_of_string "1234567".

Definition subchart_service : string :=
  "../../../test/fixtures/test_helm_subchart/charts/subchart/templates/service.yaml".

(** One directly parsed file, scanned while the storage is down for
    [SaveFile] only. *)
Definition scanWithSaveFileDown : option error * ScanState Store :=
  StartScan saveFileDown saveVulnerabilitiesOk keepFile [".tf"] parseOne
            keepBytes helmType resolveFails inspectNothing "."
            (listSources [SrcFile "main.tf" (fileReader main_tf)])
            marshalOk uuidOf "console" true start.

(** The chart of [test_with_dependecies], whose second rendered file
    does not parse. *)
Definition sinkWithParseFailure : option error * ScanState Store :=
  resolveSink saveFileOk keepFile (parseUnless subchart_service) keepBytes
              helmType (resolveTo want_test_with_dependecies) marshalOk uuidOf
              "console" "test_helm_subchart" start.

(** The chart of [test_resolve_helm], rendered as the test expects. *)
Definition sinkOnTestHelm : option error * ScanState Store :=
  resolveSink saveFileOk keepFile parseOne keepBytes helmType
              (resolveTo want_test_resolve_helm) marshalOk uuidOf
              "console" "test_helm" start.

(** One directly parsed file. *)
Definition sinkOnMainTf : option error * ScanState Store :=
  parseSink saveFileOk keepFile parseOne keepBytes marshalOk uuidOf
            "console" "main.tf" (fileReader main_tf) start.

(** The same file, parsed twice, with the storage that writes to the
    struct. *)
Definition sinkTwiceOnStamping : option error * ScanState Store :=
  parseSink saveFileOk stampFile parseOne keepBytes marshalOk uuidOf
            "console" "main.tf" (fileReader main_tf)
            (snd (parseSink saveFileOk stampFile parseOne keepBytes marshalOk
                            uuidOf "console" "main.tf" (fileReader main_tf)
                            start)).

End Examples.
(** ** Notions for the further properties *)

Module ReadRuns.

Section Reads.

Variable RS : Type.
Variable read : RS -> nat -> list byte * option error * RS.
Variable capData : nat.

(** [n] calls of [Read] in a row, as the loop of [getContent] makes
    them, that all return a nil error: what they add to [content], and
    the state of the reader after them; [None] as soon as one of them
    returns an error. *)
Fixpoint readsOk (n : nat) (st : RS) (content : list byte)
  : option (list byte * RS) :=
  match n with
  | O => Some (content, st)
  | S n' =>
      match callRead read capData st with
      | (_, Some _, _) => None
      | (d, None, st') => readsOk n' st' (content ++ d)
      end
  end.

End Reads.

(** The first [n] reads of [getContent] on [rc]. *)
Definition firstReads (rc : Reader) (n : nat)
  : option (list byte * rstate rc) :=
  readsOk (Read rc) chunkSize n (rcur rc) [].

(** A reader that never has anything and never ends: [0, nil]. *)
Definition idleReader : Reader :=
  mkReader tt (fun (_ : unit) (_ : nat) => ([], None, tt)).

(** A reader over [bs] that hands out its last bytes together with
    [io.EOF], which the [io.Reader] contract allows. *)
Definition eagerRead (rem : list byte) (n : nat)
  : list byte * option error * list byte :=
  if (length rem <=? n)%nat then (rem, Some EOF, [])
  else (firstn n rem, None, skipn n rem).

Definition eagerReader (bs : list byte) : Reader :=
  mkReader bs eagerRead.

(** A reader over [bs] whose source breaks with [e] once the bytes are
    out. *)
Definition brokenRead (e : error) (rem : list byte) (n : nat)
  : list byte * option error * list byte :=
  match rem with
  | [] => ([], Some e, [])
  | _ :: _ => (firstn n rem, None, skipn n rem)
  end.

Definition brokenReader (e : error) (bs : list byte) : Reader :=
  mkReader bs (brokenRead e).

Definition errReset : error := New "read: connection reset by peer".

End ReadRuns.

Module ServiceNotions.

Section WithService.

Variable St : Type.
Variable Parse : string -> list byte -> list Document * FileKind * option error.
Variable jsonMarshal : Document -> option error.
Variable uuid : nat -> string.

(** [json.Marshal] returns a nil error on the document. *)
Definition marshals (d : Document) : bool :=
  match jsonMarshal d with
  | None => true
  | Some _ => false
  end.

(** What [json.Marshal] returned on the last of the documents. *)
Definition lastMarshalError (documents : list Document) : option error :=
  match documents with
  | [] => None
  | d :: ds => jsonMarshal (last ds d)
  end.

(** The documents the parser finds in a rendered file. *)
Definition documentsOf (rfile : RenderedFile) : list Document :=
  fst (fst (Parse (rFileName rfile) (rContent rfile))).

(** The identifiers of the files in the list were drawn by distinct
    earlier calls of [uuid.New]. *)
Definition idsFresh (s : ScanState St) : Prop :=
  exists ns,
    map ID (files s) = map uuid ns
    /\ NoDup ns
    /\ Forall (fun n => (n < ids s)%nat) ns.

(** What a step keeps of the counters: [found] stays, [parsed] grows by
    the number of files added, [ids] never goes back. *)
Definition counted (s s' : ScanState St) : Prop :=
  found s' = found s
  /\ (parsed s' + length (files s) = parsed s + length (files s'))%nat
  /\ (ids s <= ids s')%nat.

End WithService.

(** An identifier source that never repeats, and two documents of which
    the second cannot be marshalled. *)
Fixpoint tally (n : nat) : string :=
  match n with
  | O => EmptyString
  | S n' => String "i"%char (tally n')
  end.

Definition uuidTally (n : nat) : string := "uuid-" +++ tally n.

Definition service : Document := [("kind", VString "Service")].

Definition errMarshal : error := New "json: unsupported value".

Definition marshalUnlessService (d : Document) : option error :=
  match d with
  | [("kind", VString "Service")] => Some errMarshal
  | _ => None
  end.

Definition parseTwo (filename : string) (content : list byte)
  : list Document * FileKind * option error :=
  ([Examples.pod; service], KindKubernetes, None).

End ServiceNotions.

(** ** Properties of [getContent] *)

Module GetContentFacts.

Lemma firstn_plus (A : Type) (n k : nat) :
  forall l : list A, firstn (n + k) l = firstn n l ++ firstn k (skipn n l).
Proof.
  induction n as [|n IH]; intros l.
  - reflexivity.
  - destruct l as [|x l]; simpl.
    + now rewrite firstn_nil.
    + now rewrite IH.
Qed.

Section LoopFacts.

Variable RS : Type.
Variable read : RS -> nat -> list byte * option error * RS.
Variable L : nat.

  (** The counter bounds the iterations: with more fuel than
      [maxSizeMB + 1] the loop never runs dry. *)
Lemma getContent_loop_total (fuel : nat) :
    forall (m : Z) (st : RS) (acc : list byte),
      (0 < fuel)%nat -> m + 1 < Z.of_nat fuel ->
      getContent_loop read L fuel m st acc <> ExitFuel.
Proof.
    induction fuel as [|fuel IH]; intros m st acc Hfuel Hm.
    - lia.
    - simpl. destruct (Z.ltb_spec m 0) as [Hneg|Hpos]; [discriminate|].
      unfold callRead. destruct (read st L) as [[d [err|]] st'].
      + destruct (is_EOF err); discriminate.
      + apply IH; lia.
Qed.

  (** A rejected read holds at most [maxSizeMB + 1] buffers on top of
      what it started with. *)
Lemma getContent_loop_limit_bound (fuel : nat) :
    forall (m : Z) (st : RS) (acc c : list byte),
      -1 <= m ->
      getContent_loop read L fuel m st acc = ExitLimit c ->
      (length c <= length acc + Z.to_nat (m + 1) * L)%nat.
Proof.
    induction fuel as [|fuel IH]; intros m st acc c Hm Hexit.
    - discriminate.
    - simpl in Hexit. destruct (Z.ltb_spec m 0) as [Hneg|Hpos].
      + injection Hexit as <-. lia.
      + unfold callRead in Hexit. destruct (read st L) as [[d [err|]] st'].
        * destruct (is_EOF err); discriminate.
        * apply IH in Hexit; [|lia].
          rewrite length_app, length_firstn in Hexit.
          replace (Z.to_nat (m + 1)) with (S (Z.to_nat (m - 1 + 1)))
            by lia.
          simpl. lia.
Qed.

End LoopFacts.

Section FileReader.

Variable L : nat.
Hypothesis L_pos : (0 < L)%nat.

  (** Reading a file in buffers of [L] bytes with [m] further successful
      reads allowed: the file is returned whole when it fits into [m]
      buffers, and rejected after [m + 1] buffers otherwise. *)
Lemma getContent_loop_file (fuel : nat) :
    forall (m : Z) (rem acc : list byte),
      0 <= m -> m + 1 < Z.of_nat fuel ->
      getContent_loop fileRead L fuel m rem acc =
        if (length rem <=? Z.to_nat m * L)%nat
        then ExitEOF (acc ++ rem)
        else ExitLimit (acc ++ firstn (Z.to_nat (m + 1) * L) rem).
Proof.
    induction fuel as [|fuel IH]; intros m rem acc Hm Hfuel.
    - simpl in Hfuel. lia.
    - cbn [getContent_loop].
      destruct (Z.ltb_spec m 0) as [Hneg|_]; [lia|].
      destruct rem as [|b rem'].
      + unfold callRead. cbn [fileRead is_EOF length]. rewrite app_nil_r.
        destruct (Nat.leb_spec 0 (Z.to_nat m * L)); [reflexivity|lia].
      + unfold callRead. cbn [fileRead].
        set (rem := b :: rem') in *.
        assert (Hrem : (0 < length rem)%nat) by (subst rem; simpl; lia).
        rewrite firstn_firstn, Nat.min_id.
        destruct (Z.eq_dec m 0) as [->|Hm0].
        * (* the last allowed read: the next iteration rejects *)
          destruct fuel as [|fuel]; [simpl in Hfuel; lia|].
          cbn [getContent_loop]. simpl (0 - 1 <? 0).
          cbv iota.
          destruct (Nat.leb_spec (length rem) (Z.to_nat 0 * L)); [lia|].
          simpl (Z.to_nat (0 + 1)). rewrite Nat.mul_1_l. reflexivity.
        * rewrite IH by lia.
          rewrite length_skipn.
          replace (Z.to_nat (m - 1 + 1)) with (Z.to_nat m) by lia.
          replace (Z.to_nat (m + 1)) with (S (Z.to_nat m)) by lia.
          replace (Z.to_nat m) with (S (Z.to_nat (m - 1))) by lia.
          set (k := Z.to_nat (m - 1)).
          assert (HS : (S k * L = L + k * L)%nat) by reflexivity.
          assert (HSS : (S (S k) * L
                         = L + S k * L)%nat) by reflexivity.
          destruct (Nat.leb_spec (length rem - L) (k * L)) as [Hle|Hgt];
            destruct (Nat.leb_spec (length rem) (S k * L))
              as [Hle'|Hgt']; try lia.
          -- rewrite <- app_assoc, firstn_skipn. reflexivity.
          -- rewrite <- app_assoc, HSS, firstn_plus. reflexivity.
Qed.

End FileReader.

Lemma chunkSize_pos : (0 < chunkSize)%nat.
Proof. unfold chunkSize. lia. Qed.

(** The fuel of [getContent_exit] is enough for every reader. *)
Lemma getContent_exit_total (rc : Reader) : getContent_exit rc <> ExitFuel.
Proof. apply getContent_loop_total; simpl; lia. Qed.

Lemma getContent_exit_file (bs : list byte) :
  getContent_exit (fileReader bs) =
    if (length bs <=? maxSize)%nat
    then ExitEOF bs
    else ExitLimit (firstn (maxSize + chunkSize) bs).
Proof.
  unfold getContent_exit. simpl rcur. simpl Read.
  rewrite (getContent_loop_file chunkSize_pos) by (simpl; lia).
  unfold maxSize. change (Z.to_nat 5) with 5%nat.
  change (Z.to_nat (5 + 1)) with 6%nat.
  replace (5 * chunkSize + chunkSize)%nat with (6 * chunkSize)%nat by lia.
  reflexivity.
Qed.



Import Examples.

(** C1, as the code has it.  A reader that fills every 1 MiB buffer
    until the input ends (a regular file) gets its input back whole
    exactly when the input is at most 5 MiB long, and the error
    [file size limit exceeded] with empty content otherwise; and for
    every reader whatsoever a rejected read has accumulated at most
    cap + chunkSize bytes.  The limit counts successful reads, six of
    them, not bytes. *)
Theorem getContent_file_cap :
  forall (bs : list byte) (rc : Reader) (c : list byte),
    getContent (fileReader bs) =
      (if (length bs <=? maxSize)%nat then (bs, None)
       else ([], Some errLimit))
    /\ (getContent_exit rc = ExitLimit c ->
        (length c <= maxSize + chunkSize)%nat).
Proof.
  intros bs rc c. split.
  - unfold getContent. rewrite getContent_exit_file.
    destruct (length bs <=? maxSize)%nat; reflexivity.
  - intros Hexit. unfold getContent_exit in Hexit.
    apply getContent_loop_limit_bound in Hexit; [|lia].
    simpl length in Hexit. change (Z.to_nat (5 + 1)) with 6%nat in Hexit.
    unfold maxSize. lia.
Qed.

Lemma getContent_file_cap_witness :
  getContent (fileReader seven_bytes) = (seven_bytes, None)
  /\ (length (firstn 6 seven_bytes) <= maxSize + chunkSize)%nat.
Proof.
  destruct (getContent_file_cap seven_bytes (shortReader 1 seven_bytes)
                                (firstn 6 seven_bytes)) as [Hfile Hbound].
  split.
  - rewrite Hfile. vm_compute. reflexivity.
  - apply Hbound. vm_compute. reflexivity.
Defined.

(** C1 as stated fails: seven bytes delivered one per read are far
    below the cap, yet the seventh iteration rejects them. *)
Lemma getContent_short_reads_rejected :
  (length seven_bytes <=? maxSize)%nat = true
  /\ getContent (shortReader 1 seven_bytes) = ([], Some errLimit).
Proof. split; vm_compute; reflexivity. Qed.

End GetContentFacts.

(** ** Properties of the scan service *)

Module ServiceFacts.

Section WithService.

Variable St : Type.
Variable Vulnerability : Type.
Variable SaveFile : St -> FileMetadata -> option error * St.
Variable SaveVulnerabilities : St -> list Vulnerability -> option error * St.
Variable SaveFileLeaves : St -> FileMetadata -> FileMetadata.
Variable SupportedExtensions : list string.
Variable Parse : string -> list byte -> list Document * FileKind * option error.
Variable ParseLeaves : string -> list byte -> list byte.
Variable GetType : string -> FileKind.
Variable Resolve : string -> FileKind -> RenderedFiles * option error.
Variable Inspect :
  string -> list FileMetadata -> bool -> string ->
  list Vulnerability * option error.
Variable GetBasePath : string.
Variable GetSources :
  forall T : Type,
    list string ->
    (string -> Reader -> T -> option error * T) ->
    (string -> T -> option error * T) ->
    T -> option error * T.
Variable jsonMarshal : Document -> option error.
Variable uuid : nat -> string.

Local Abbreviation State := (ScanState St).
Local Abbreviation save := (saveToFile SaveFile SaveFileLeaves).
Local Abbreviation pDocs :=
  (parseDocuments SaveFile SaveFileLeaves jsonMarshal uuid).
Local Abbreviation pSink :=
  (parseSink SaveFile SaveFileLeaves Parse ParseLeaves jsonMarshal uuid).
Local Abbreviation rDocs :=
  (resolveDocuments SaveFile SaveFileLeaves ParseLeaves jsonMarshal uuid).
Local Abbreviation rFiles :=
  (resolveFiles SaveFile SaveFileLeaves Parse ParseLeaves jsonMarshal uuid).
Local Abbreviation rSink :=
  (resolveSink SaveFile SaveFileLeaves Parse ParseLeaves GetType Resolve
               jsonMarshal uuid).
Local Abbreviation left := (leftOf SaveFileLeaves).

(** *** What [saveToFile] does to [files] *)

Lemma saveToFile_files (file : FileMetadata) (s : State) :
  files (save file s) =
    match fst (SaveFile (storage s) file) with
    | None => files s ++ [SaveFileLeaves (storage s) file]
    | Some _ => files s
    end.
Proof.
  unfold saveToFile. destruct (SaveFile (storage s) file) as [[e|] st'];
    reflexivity.
Qed.

Lemma saveToFile_error (file : FileMetadata) (s : State) (e : error) (st' : St) :
  SaveFile (storage s) file = (Some e, st') ->
  save file s = mkScanState (files s) st' (found s) (parsed s) (ids s).
Proof. intros H. unfold saveToFile. rewrite H. reflexivity. Qed.

Lemma leftOf_impl (P Q : FileMetadata -> Prop) (f : FileMetadata) :
  (forall x, P x -> Q x) -> left P f -> left Q f.
Proof. intros HPQ [st [file [HP Heq]]]. exists st, file. auto. Qed.

Lemma leftOf_readsOnly (P : FileMetadata -> Prop) (f : FileMetadata) :
  readsOnly SaveFileLeaves -> left P f -> P f.
Proof. intros Hro [st [file [HP ->]]]. rewrite Hro. exact HP. Qed.

Lemma saveToFile_added (P : FileMetadata -> Prop) (file : FileMetadata)
    (s : State) :
  P file ->
  exists added,
    files (save file s) = files s ++ added /\ Forall (left P) added.
Proof.
  intros HP. rewrite saveToFile_files.
  destruct (fst (SaveFile (storage s) file)).
  - exists []. rewrite app_nil_r. auto.
  - exists [SaveFileLeaves (storage s) file]. split; [reflexivity|].
    constructor; [|constructor]. exists (storage s), file. auto.
Qed.

(** *** The files a loop adds all come out of its composite literal *)

Lemma parseDocuments_added (P : FileMetadata -> Prop)
    (scanID filename : string) (content : list byte) (kind : FileKind) :
  (forall id document,
      P (mkFileMetadata id scanID document (string_of_list_byte content)
                        kind filename EmptyString EmptyString [])) ->
  forall documents err s,
    exists added,
      files (snd (pDocs scanID filename content kind documents err s))
        = files s ++ added
      /\ Forall (left P) added.
Proof.
  intros HP. induction documents as [|document rest IH]; intros err s.
  - exists []. simpl. rewrite app_nil_r. auto.
  - simpl. destruct (jsonMarshal document) as [e|].
    + apply IH.
    + set (file := mkFileMetadata (uuid (ids s)) scanID document
                     (string_of_list_byte content) kind filename
                     EmptyString EmptyString []).
      destruct (IH None (save file (snd (uuidNew uuid s))))
        as [added2 [Heq2 HP2]].
      destruct (saveToFile_added P file (snd (uuidNew uuid s)) (HP _ _))
        as [added1 [Heq1 HP1]].
      exists (added1 ++ added2). split.
      * simpl in Heq2, Heq1. simpl. rewrite Heq2, Heq1, app_assoc. reflexivity.
      * apply Forall_app. auto.
Qed.

Lemma resolveDocuments_added (scanID : string) (kind : FileKind)
    (rfile : RenderedFile) :
  forall documents s,
    exists added,
      files (rDocs scanID kind rfile documents s) = files s ++ added
      /\ Forall (left (builtFrom ParseLeaves scanID kind rfile)) added.
Proof.
  induction documents as [|document rest IH]; intros s.
  - exists []. simpl. rewrite app_nil_r. auto.
  - simpl. destruct (jsonMarshal document) as [e|].
    + apply IH.
    + set (file := mkFileMetadata (uuid (ids s)) scanID document
                     (string_of_list_byte (rOriginalData rfile)) kind
                     (rFileName rfile)
                     (string_of_list_byte
                        (ParseLeaves (rFileName rfile) (rContent rfile)))
                     (SplitID rfile) (rIDInfo rfile)).
      destruct (IH (save file (snd (uuidNew uuid s))))
        as [added2 [Heq2 HP2]].
      destruct (saveToFile_added (builtFrom ParseLeaves scanID kind rfile)
                  file (snd (uuidNew uuid s))) as [added1 [Heq1 HP1]].
      { exists (uuid (ids s)), document. reflexivity. }
      exists (added1 ++ added2). split.
      * simpl in Heq2, Heq1. simpl. rewrite Heq2, Heq1, app_assoc. reflexivity.
      * apply Forall_app. auto.
Qed.

Lemma resolveFiles_added (scanID : string) (kind : FileKind) :
  forall rfiles s,
    exists added,
      files (snd (rFiles scanID kind rfiles s)) = files s ++ added
      /\ Forall (left (fun f => exists rfile,
                           In rfile rfiles
                           /\ builtFrom ParseLeaves scanID kind rfile f))
                added.
Proof.
  induction rfiles as [|rfile rest IH]; intros s.
  - exists []. simpl. rewrite app_nil_r. auto.
  - simpl. destruct (Parse (rFileName rfile) (rContent rfile))
      as [[documents k] [e|]].
    + exists []. simpl. rewrite app_nil_r. auto.
    + destruct (resolveDocuments_added scanID kind rfile documents s)
        as [added1 [Heq1 HP1]].
      destruct (IH (rDocs scanID kind rfile documents s))
        as [added2 [Heq2 HP2]].
      exists (added1 ++ added2). split.
      * rewrite Heq2, Heq1, app_assoc. reflexivity.
      * apply Forall_app. split.
        -- eapply Forall_impl; [|exact HP1].
           intros f. apply leftOf_impl.
           intros x Hx. exists rfile. split; [left; reflexivity|exact Hx].
        -- eapply Forall_impl; [|exact HP2].
           intros f. apply leftOf_impl.
           intros x [rf [Hin Hx]]. exists rf.
           split; [right; exact Hin|exact Hx].
Qed.

(** *** Failures inside the resolve sink *)

Lemma resolveFiles_stops (scanID : string) (kind : FileKind)
    (rfile : RenderedFile) (after : list RenderedFile)
    (documents : list Document) (k : FileKind) (e : error) :
  Parse (rFileName rfile) (rContent rfile) = (documents, k, Some e) ->
  forall before s,
    Forall (parses Parse) before ->
    rFiles scanID kind (before ++ rfile :: after) s =
      (Some (WithMessage "failed to parse file content" e),
       snd (rFiles scanID kind before s)).
Proof.
  intros Hfail. induction before as [|rf before IH]; intros s Hok.
  - simpl. rewrite Hfail. reflexivity.
  - inversion Hok as [|? ? Hrf Hrest]; subst. unfold parses in Hrf.
    simpl. destruct (Parse (rFileName rf) (rContent rf)) as [[ds k'] [e'|]].
    + discriminate.
    + apply IH. exact Hrest.
Qed.

(** *** The sinks' errors do not depend on the storage *)

Lemma parseDocuments_error_any_storage
    (SaveFile' : St -> FileMetadata -> option error * St)
    (SaveFileLeaves' : St -> FileMetadata -> FileMetadata)
    (scanID filename : string) (content : list byte) (kind : FileKind) :
  forall documents err (s s' : State),
    fst (pDocs scanID filename content kind documents err s) =
    fst (parseDocuments SaveFile' SaveFileLeaves' jsonMarshal uuid scanID
                        filename content kind documents err s').
Proof.
  induction documents as [|document rest IH]; intros err s s'.
  - reflexivity.
  - simpl. destruct (jsonMarshal document); apply IH.
Qed.

Lemma resolveFiles_error_any_storage
    (SaveFile' : St -> FileMetadata -> option error * St)
    (SaveFileLeaves' : St -> FileMetadata -> FileMetadata)
    (scanID : string) (kind : FileKind) :
  forall rfiles (s s' : State),
    fst (rFiles scanID kind rfiles s) =
    fst (resolveFiles SaveFile' SaveFileLeaves' Parse ParseLeaves jsonMarshal
                      uuid scanID kind rfiles s').
Proof.
  induction rfiles as [|rfile rest IH]; intros s s'.
  - reflexivity.
  - simpl. destruct (Parse (rFileName rfile) (rContent rfile))
      as [[documents k] [e|]]; [reflexivity|apply IH].
Qed.


(** What the code does with the errors of the storage.  An error of
    [SaveVulnerabilities] is returned by [StartScan], wrapped.  An
    error of [SaveFile] is not: [saveToFile] leaves the file out of the
    list and returns nothing, and the error each sink returns is the
    same whatever the storage answers or writes. *)
Theorem StartScan_storage_errors :
  forall (scanID : string) (hideProgress : bool) (s : State),
    (forall s1 vulnerabilities e st',
        GetSources SupportedExtensions (pSink scanID) (rSink scanID) s
          = (None, s1) ->
        Inspect scanID (files s1) hideProgress GetBasePath
          = (vulnerabilities, None) ->
        SaveVulnerabilities (storage s1) vulnerabilities = (Some e, st') ->
        fst (StartScan SaveFile SaveVulnerabilities SaveFileLeaves
                       SupportedExtensions Parse ParseLeaves
                       GetType Resolve Inspect GetBasePath GetSources
                       jsonMarshal uuid scanID hideProgress s)
          = Some (WithMessage "failed to save vulnerabilities" e))
    /\ (forall file e st',
           SaveFile (storage s) file = (Some e, st') ->
           save file s = mkScanState (files s) st' (found s) (parsed s) (ids s))
    /\ (forall (SaveFile' : St -> FileMetadata -> option error * St)
               (SaveFileLeaves' : St -> FileMetadata -> FileMetadata)
               filename rc,
           fst (pSink scanID filename rc s)
             = fst (parseSink SaveFile' SaveFileLeaves' Parse ParseLeaves
                              jsonMarshal uuid scanID filename rc s)
           /\ fst (rSink scanID filename s)
                = fst (resolveSink SaveFile' SaveFileLeaves' Parse ParseLeaves
                                   GetType Resolve jsonMarshal uuid scanID
                                   filename s)).
Proof.
  intros scanID hideProgress s. split; [|split].
  - intros s1 vulnerabilities e st' Hsrc Hinsp Hsave.
    unfold StartScan. rewrite Hsrc, Hinsp, Hsave. reflexivity.
  - intros file e st'. apply saveToFile_error.
  - intros SaveFile' SaveFileLeaves' filename rc. split.
    + unfold parseSink. destruct (getContent rc) as [content [e|]];
        [reflexivity|].
      destruct (Parse filename content) as [[documents kind] [e|]];
        [reflexivity|].
      pose proof (parseDocuments_error_any_storage SaveFile' SaveFileLeaves'
                    scanID filename (ParseLeaves filename content) kind
                    documents None (TrackFileFound s) (TrackFileFound s)) as H.
      destruct (pDocs scanID filename (ParseLeaves filename content) kind
                      documents None (TrackFileFound s)) as [e1 s1].
      destruct (parseDocuments SaveFile' SaveFileLeaves' jsonMarshal uuid
                  scanID filename (ParseLeaves filename content) kind
                  documents None (TrackFileFound s)) as [e2 s2].
      simpl in *. now rewrite H.
    + unfold resolveSink. destruct (FileKind_eqb (GetType filename) KindCOMMON);
        [reflexivity|].
      destruct (Resolve filename (GetType filename)) as [rendering [e|]];
        [reflexivity|].
      apply resolveFiles_error_any_storage.
Qed.



End WithService.

Import Examples HelmResolveTest.

(** *** The theorems at concrete collaborators *)

Lemma readsOnly_keepFile : readsOnly keepFile.
Proof. intros st file. reflexivity. Qed.

Lemma parsesOnly_keepBytes : parsesOnly keepBytes.
Proof. intros filename content. reflexivity. Qed.



Lemma StartScan_storage_errors_witness :
  fst (StartScan saveFileOk saveVulnerabilitiesDown keepFile [".tf"] parseOne
                 keepBytes helmType resolveFails inspectNothing "."
                 (listSources [SrcFile "main.tf" (fileReader main_tf)])
                 marshalOk uuidOf "console" true start)
    = Some (WithMessage "failed to save vulnerabilities" errDown)
  /\ saveToFile saveFileDown keepFile
                (mkFileMetadata "1" "console" pod EmptyString KindKubernetes
                                "a" EmptyString EmptyString [])
                start
       = mkScanState [] [] 0 0 0.
Proof.
  split.
  - eapply (@StartScan_storage_errors Store unit saveFileOk
              saveVulnerabilitiesDown keepFile [".tf"] parseOne keepBytes
              helmType resolveFails inspectNothing "."
              (listSources [SrcFile "main.tf" (fileReader main_tf)])
              marshalOk uuidOf "console" true start); vm_compute; reflexivity.
  - eapply (@StartScan_storage_errors Store unit saveFileDown
              saveVulnerabilitiesDown keepFile [".tf"] parseOne keepBytes
              helmType resolveFails inspectNothing "."
              (listSources [SrcFile "main.tf" (fileReader main_tf)])
              marshalOk uuidOf "console" true start).
    reflexivity.
Defined.

(** C6: the code at the failing input.  [SaveFile] answers with an
    error for the one document of the scan, and [StartScan] returns
    nil; the document is in neither the list nor the storage, and the
    error is reported nowhere. *)
Lemma StartScan_hides_SaveFile_error :
  fst (saveFileDown [] (mkFileMetadata "uuid-0" "console" pod "resource {}"
                                       KindKubernetes "main.tf" EmptyString
                                       EmptyString []))
    = Some errDown
  /\ scanWithSaveFileDown = (None, mkScanState [] [] 1 0 1).
Proof. split; vm_compute; reflexivity. Qed.




(** What a storage that writes through the pointer it is handed does
    to the list: the entries are the structs as it left them, here
    two with the same [ID] and a [Content] of the storage's making. *)
Lemma parseSink_appends_what_SaveFile_left :
  map (fun f => (ID f, Content f, OriginalData f))
      (files (snd sinkTwiceOnStamping))
    = [("fixed-id", "set by storage", "resource {}");
       ("fixed-id", "set by storage", "resource {}")].
Proof. vm_compute. reflexivity. Qed.


End ServiceFacts.

(** ** The CloudFront TLS policy *)

Module CloudFrontFacts.

Import CloudFrontPolicy.

Lemma hasSuffix_refl (s : string) : hasSuffix s s = true.
Proof. destruct s; simpl; [reflexivity|]. now rewrite String.eqb_refl, Ascii.eqb_refl. Qed.

Lemma hasSuffix_append (suffix t : string) :
  hasSuffix suffix t = true ->
  forall a, hasSuffix suffix (a +++ t) = true.
Proof.
  intros Ht. induction a as [|c a IH]; simpl.
  - exact Ht.
  - rewrite IH. apply orb_true_r.
Qed.

Lemma checkMinProtocolVersion_defined (version : Value) :
  holds (checkMinProtocolVersion version) = true <->
  version = VString "TLSv1.1" \/ version = VString "TLSv1.2".
Proof.
  unfold checkMinProtocolVersion.
  destruct version as [|b|n|s|items|fields];
    try (split; [discriminate|intros [H|H]; discriminate]).
  destruct (String.eqb_spec s "TLSv1.1") as [->|H1].
  { split; auto. }
  destruct (String.eqb_spec s "TLSv1.2") as [->|H2].
  { split; auto. }
  split; [discriminate|].
  intros [H|H]; injection H as ->; contradiction.
Qed.

(** *** Equal members of the set are one *)

Lemma Value_eqb_eq : forall a b, Value_eqb a b = true -> a = b.
Proof.
  fix IH 1. intros a b.
  destruct a as [|x|x|x|xs|fs], b as [|y|y|y|ys|gs];
    simpl; try discriminate; intros H.
  - reflexivity.
  - apply Bool.eqb_prop in H. now subst.
  - apply Z.eqb_eq in H. now subst.
  - apply String.eqb_eq in H. now subst.
  - f_equal. revert ys H.
    induction xs as [|x xs IHxs]; intros [|y ys] H; try discriminate.
    + reflexivity.
    + apply andb_prop in H. destruct H as [H1 H2].
      f_equal; [apply IH; exact H1|apply IHxs; exact H2].
  - f_equal. revert gs H.
    induction fs as [|[k x] fs IHfs]; intros [|[l y] gs] H; try discriminate.
    + reflexivity.
    + apply andb_prop in H. destruct H as [H12 H3].
      apply andb_prop in H12. destruct H12 as [H1 H2].
      apply String.eqb_eq in H1. subst l.
      f_equal; [f_equal; apply IH; exact H2|apply IHfs; exact H3].
Qed.

Lemma Result_eqb_eq (r r' : Result) : Result_eqb r r' = true -> r = r'.
Proof.
  destruct r as [d k t e a], r' as [d' k' t' e' a']. unfold Result_eqb. simpl.
  intros H.
  repeat (apply andb_prop in H; destruct H as [H ?]).
  apply Value_eqb_eq in H.
  repeat match goal with
         | E : String.eqb _ _ = true |- _ => apply String.eqb_eq in E
         end.
  now subst.
Qed.

Lemma In_members (r : Result) (rs : list Result) :
  In r (members rs) <-> In r rs.
Proof.
  induction rs as [|r0 rest IH]; simpl; [tauto|].
  destruct (existsb (Result_eqb r0) rest) eqn:Hdup.
  - split; [tauto|]. intros [<-|Hin]; [|tauto].
    apply existsb_exists in Hdup. destruct Hdup as [r' [Hin' Heq]].
    apply Result_eqb_eq in Heq. subst r'. tauto.
  - simpl. tauto.
Qed.

Section WithSprintf.

Variable sprintOther : Value -> string.

(** *** When the body yields a result, and which *)

Lemma CxPolicy_body_Some (document name resource : Value) (r : Result) :
  CxPolicy_body sprintOther document name resource = Some r <->
  exists version id,
    path ["viewer_certificate"; "cloudfront_default_certificate"] resource
      = Some (VBool false)
    /\ path ["viewer_certificate"; "minimum_protocol_version"] resource
         = Some version
    /\ version <> VString "TLSv1.1"
    /\ version <> VString "TLSv1.2"
    /\ field "id" document = Some id
    /\ r = mkResult
             id
             (keyOf sprintOther name)
             "IncorrectValue"
             ("resource.aws_cloudfront_distribution["
                +++ sprint sprintOther name +++ "]." +++ keySuffix
                +++ " is TLSv1.1 or TLSv1.2")
             ("resource.aws_cloudfront_distribution["
                +++ sprint sprintOther name +++ "]." +++ keySuffix
                +++ " isn't TLSv1.1 or TLSv1.2").
Proof.
  unfold CxPolicy_body, keyOf. split.
  - intros Hbody.
    destruct (path ["viewer_certificate"; "cloudfront_default_certificate"]
                   resource) as [[|[|]|n|s|items|fields]|] eqn:Hcert;
      cbn [equalsFalse holds] in Hbody; try discriminate.
    destruct (path ["viewer_certificate"; "minimum_protocol_version"] resource)
      as [version|] eqn:Hversion; [|discriminate].
    destruct (holds (checkMinProtocolVersion version)) eqn:Hcheck;
      cbn [negb] in Hbody; [discriminate|].
    destruct (field "id" document) as [id|] eqn:Hid; [|discriminate].
    injection Hbody as <-.
    exists version, id. repeat split; auto.
    + intros ->. vm_compute in Hcheck. discriminate.
    + intros ->. vm_compute in Hcheck. discriminate.
  - intros [version [id [Hcert [Hversion [H1 [H2 [Hid ->]]]]]]].
    rewrite Hcert, Hversion. cbn [equalsFalse holds].
    destruct (holds (checkMinProtocolVersion version)) eqn:Hcheck.
    + apply checkMinProtocolVersion_defined in Hcheck.
      destruct Hcheck; contradiction.
    + cbn [negb]. rewrite Hid. reflexivity.
Qed.

(** *** The members of [CxPolicy] are the results of the bindings *)

Lemma In_CxPolicy (input documents : Value) (r : Result) :
  field "document" input = Some documents ->
  In r (CxPolicy sprintOther input) <->
  exists i document name resource,
    In (i, document) (iterate documents)
    /\ In (name, resource) (distributions document)
    /\ CxPolicy_body sprintOther document name resource = Some r.
Proof.
  intros Hdocs. unfold CxPolicy. rewrite Hdocs. rewrite In_members.
  rewrite in_flat_map. split.
  - intros [[i document] [Hi Hin]].
    unfold CxPolicy_document in Hin. apply in_flat_map in Hin.
    destruct Hin as [[name resource] [Hname Hin]]. simpl in Hin.
    destruct (CxPolicy_body sprintOther document name resource) as [r'|]
      eqn:Hbody; simpl in Hin; [|contradiction].
    destruct Hin as [<-|[]].
    exists i, document, name, resource. auto.
  - intros [i [document [name [resource [Hi [Hname Hbody]]]]]].
    exists (i, document). split; [exact Hi|].
    unfold CxPolicy_document. apply in_flat_map.
    exists (name, resource). split; [exact Hname|].
    simpl. rewrite Hbody. left. reflexivity.
Qed.

(** C10, as the code has it.  Take a distribution of a document of the
    input, the document carrying an [id] and the distribution having
    [viewer_certificate.cloudfront_default_certificate] equal to
    [false].  When [minimum_protocol_version] is there and is neither
    ["TLSv1.1"] nor ["TLSv1.2"], [CxPolicy] holds a finding for the
    distribution: one with the [id] of the document and the search key
    of the distribution.  When no other distribution of a document
    with that [id] prints the same search key, there is such a finding
    only then: none when the attribute is one of the two strings, and
    none when it is missing.  Every finding of the policy has the
    issue type [IncorrectValue] and a search key ending in
    [viewer_certificate.minimum_protocol_version]. *)
Theorem CxPolicy_minimum_protocol_version :
  forall (input documents i document name resource id : Value),
    field "document" input = Some documents ->
    In (i, document) (iterate documents) ->
    In (name, resource) (distributions document) ->
    field "id" document = Some id ->
    path ["viewer_certificate"; "cloudfront_default_certificate"] resource
      = Some (VBool false) ->
    ((exists version,
         path ["viewer_certificate"; "minimum_protocol_version"] resource
           = Some version
         /\ version <> VString "TLSv1.1"
         /\ version <> VString "TLSv1.2") ->
     exists r,
       In r (CxPolicy sprintOther input)
       /\ documentId r = id
       /\ searchKey r = keyOf sprintOther name)
    /\ ((forall i' document' name' resource',
            In (i', document') (iterate documents) ->
            In (name', resource') (distributions document') ->
            field "id" document' = Some id ->
            keyOf sprintOther name' = keyOf sprintOther name ->
            resource' = resource) ->
        (exists r,
            In r (CxPolicy sprintOther input)
            /\ documentId r = id
            /\ searchKey r = keyOf sprintOther name) ->
        exists version,
          path ["viewer_certificate"; "minimum_protocol_version"] resource
            = Some version
          /\ version <> VString "TLSv1.1"
          /\ version <> VString "TLSv1.2")
    /\ (forall r,
           In r (CxPolicy sprintOther input) ->
           issueType r = "IncorrectValue"
           /\ hasSuffix "viewer_certificate.minimum_protocol_version"
                        (searchKey r) = true).
Proof.
  intros input documents i document name resource id
         Hdocs Hi Hname Hid Hcert.
  split; [|split].
  - intros [version [Hversion [H1 H2]]].
    eexists. split; [|split].
    + apply (@In_CxPolicy input documents _ Hdocs).
      exists i, document, name, resource.
      split; [exact Hi|]. split; [exact Hname|].
      apply CxPolicy_body_Some. exists version, id.
      repeat split; auto.
    + reflexivity.
    + reflexivity.
  - intros Hone [r [Hin [Hrid Hkey]]].
    apply (@In_CxPolicy input documents r Hdocs) in Hin.
    destruct Hin as [i' [document' [name' [resource' [Hi' [Hname' Hbody]]]]]].
    apply CxPolicy_body_Some in Hbody.
    destruct Hbody as [version [id' [_ [Hversion [H1 [H2 [Hid' ->]]]]]]].
    cbn [documentId searchKey] in Hrid, Hkey. subst id'.
    rewrite (Hone i' document' name' resource' Hi' Hname' Hid' Hkey)
      in Hversion.
    exists version. auto.
  - intros r Hin.
    apply (@In_CxPolicy input documents r Hdocs) in Hin.
    destruct Hin as [i' [document' [name' [resource' [_ [_ Hbody]]]]]].
    apply CxPolicy_body_Some in Hbody.
    destruct Hbody as [version [id' [_ [_ [_ [_ [_ ->]]]]]]].
    split; [reflexivity|]. cbn [searchKey]. unfold keyOf.
    do 3 apply hasSuffix_append. apply hasSuffix_refl.
Qed.

End WithSprintf.

(** The scenario S2: the distribution [positive1] with [TLSv1] has its
    finding, and with [TLSv1.2] it has none. *)
Lemma CxPolicy_minimum_protocol_version_witness :
  (exists r,
      In r (CxPolicy sprintNothing (inputWith (VString "TLSv1")))
      /\ documentId r = VString "doc-1"
      /\ searchKey r = keyOf sprintNothing (VString "positive1"))
  /\ ~ (exists r,
           In r (CxPolicy sprintNothing (inputWith (VString "TLSv1.2")))
           /\ documentId r = VString "doc-1"
           /\ searchKey r = keyOf sprintNothing (VString "positive1")).
Proof.
  split.
  - apply (@CxPolicy_minimum_protocol_version sprintNothing
             (inputWith (VString "TLSv1"))
             (VArray [documentWith (VString "TLSv1")]) (VNumber 0)
             (documentWith (VString "TLSv1")) (VString "positive1")
             (distribution (VString "TLSv1")) (VString "doc-1")).
    + reflexivity.
    + left. reflexivity.
    + left. reflexivity.
    + reflexivity.
    + reflexivity.
    + exists (VString "TLSv1"). split; [reflexivity|]. split; discriminate.
  - intros Hfinding.
    destruct (@CxPolicy_minimum_protocol_version sprintNothing
                (inputWith (VString "TLSv1.2"))
                (VArray [documentWith (VString "TLSv1.2")]) (VNumber 0)
                (documentWith (VString "TLSv1.2")) (VString "positive1")
                (distribution (VString "TLSv1.2")) (VString "doc-1")
                eq_refl (or_introl eq_refl) (or_introl eq_refl)
                eq_refl eq_refl)
      as [_ [Honly _]].
    destruct Honly as [version [Hversion [_ H2]]].
    + intros i' document' name' resource' [Hi|[]] Hname _ _.
      injection Hi as _ <-.
      destruct Hname as [Hname|[]]. injection Hname as _ <-. reflexivity.
    + exact Hfinding.
    + injection Hversion as <-. apply H2. reflexivity.
Defined.

(** C10 as stated fails: the distribution has
    [cloudfront_default_certificate = false] and no
    [minimum_protocol_version], so the attribute is neither of the two
    strings, and the policy has no finding; nor has it one for the
    distribution of S2 when the document carries no [id]. *)
Lemma CxPolicy_unversioned_no_finding :
  path ["viewer_certificate"; "cloudfront_default_certificate"]
       distributionUnversioned = Some (VBool false)
  /\ path ["viewer_certificate"; "minimum_protocol_version"]
          distributionUnversioned = None
  /\ CxPolicy sprintNothing inputUnversioned = []
  /\ CxPolicy sprintNothing inputWithoutId = [].
Proof. repeat split; vm_compute; reflexivity. Qed.

End CloudFrontFacts.

(** ** Further properties of [getContent] *)

Module GetContentMore.

Import ReadRuns Examples.

Section LoopMore.

Variable RS : Type.
Variable read : RS -> nat -> list byte * option error * RS.
Variable L : nat.

(** After [n] successful reads the loop stands where it would have
    started with the counter [n] lower. *)
Lemma getContent_loop_after_reads (n : nat) :
  forall (fuel : nat) (m : Z) (st st' : RS) (acc c : list byte),
    readsOk read L n st acc = Some (c, st') ->
    Z.of_nat n <= m + 1 ->
    getContent_loop read L (n + fuel) m st acc =
      getContent_loop read L fuel (m - Z.of_nat n) st' c.
Proof.
  induction n as [|n IH]; intros fuel m st st' acc c Hreads Hm.
  - simpl in Hreads. injection Hreads as <- <-.
    simpl. f_equal. lia.
  - simpl in Hreads.
    destruct (callRead read L st) as [[d [e|]] st1] eqn:Hread;
      [discriminate|].
    cbn [Nat.add getContent_loop].
    destruct (Z.ltb_spec m 0) as [Hneg|_]; [lia|].
    rewrite Hread. rewrite (IH fuel (m - 1) st1 st' (acc ++ d) c Hreads)
      by lia.
    f_equal. lia.
Qed.

Lemma getContent_loop_err_not_EOF (fuel : nat) :
  forall (m : Z) (st : RS) (acc c : list byte) (e : error),
    getContent_loop read L fuel m st acc = ExitErr e c ->
    is_EOF e = false.
Proof.
  induction fuel as [|fuel IH]; intros m st acc c e Hexit.
  - discriminate.
  - simpl in Hexit. destruct (m <? 0); [discriminate|].
    destruct (callRead read L st) as [[d [e'|]] st'].
    + destruct (is_EOF e') eqn:He; [discriminate|].
      injection Hexit as <- _. exact He.
    + eapply IH. exact Hexit.
Qed.

End LoopMore.

(** X1.  The limit of [getContent] is a number of reads: a reader whose
    first six reads return no error is rejected with
    [file size limit exceeded], holding what those six reads delivered,
    however little that is. *)
Theorem getContent_six_reads_rejected :
  forall (rc : Reader) (c : list byte) (st' : rstate rc),
    firstReads rc 6 = Some (c, st') ->
    getContent_exit rc = ExitLimit c
    /\ getContent rc = ([], Some errLimit).
Proof.
  intros rc c st' Hreads. unfold firstReads in Hreads.
  assert (Hexit : getContent_exit rc = ExitLimit c).
  { unfold getContent_exit. change 7%nat with (6 + 1)%nat.
    rewrite (getContent_loop_after_reads _ _ 6 1 5 _ _ Hreads) by (simpl; lia).
    reflexivity. }
  split; [exact Hexit|]. unfold getContent. rewrite Hexit. reflexivity.
Qed.

Lemma getContent_six_reads_rejected_witness :
  getContent_exit idleReader = ExitLimit []
  /\ getContent idleReader = ([], Some errLimit).
Proof.
  apply (@getContent_six_reads_rejected idleReader [] tt).
  vm_compute. reflexivity.
Defined.

(** X2.  When at most five reads succeed and the next one returns
    [io.EOF], [getContent] returns what the successful reads delivered
    and a nil error; bytes that come in the same read as [io.EOF] are
    not part of the content. *)
Theorem getContent_until_EOF :
  forall (rc : Reader) (k : nat) (c d : list byte) (st' st'' : rstate rc),
    (k <= 5)%nat ->
    firstReads rc k = Some (c, st') ->
    Read rc st' chunkSize = (d, Some EOF, st'') ->
    getContent rc = (c, None).
Proof.
  intros rc k c d st' st'' Hk Hreads Hread. unfold firstReads in Hreads.
  unfold getContent, getContent_exit.
  replace 7%nat with (k + S (6 - k))%nat by lia.
  rewrite (getContent_loop_after_reads _ _ k (S (6 - k)) 5 _ _ Hreads) by lia.
  cbn [getContent_loop].
  destruct (Z.ltb_spec (5 - Z.of_nat k) 0) as [Hneg|_]; [lia|].
  unfold callRead. rewrite Hread. reflexivity.
Qed.

Lemma getContent_until_EOF_witness :
  getContent (eagerReader seven_bytes) = ([], None).
Proof.
  apply (@getContent_until_EOF (eagerReader seven_bytes) 0 [] seven_bytes
           seven_bytes []).
  - lia.
  - reflexivity.
  - vm_compute. reflexivity.
Defined.

(** X3.  When at most five reads succeed and the next one returns an
    error other than [io.EOF], [getContent] returns that error as it
    is, not wrapped, and an empty content: what was read so far is
    given up. *)
Theorem getContent_read_error :
  forall (rc : Reader) (k : nat) (c d : list byte) (e : error)
         (st' st'' : rstate rc),
    (k <= 5)%nat ->
    firstReads rc k = Some (c, st') ->
    Read rc st' chunkSize = (d, Some e, st'') ->
    is_EOF e = false ->
    getContent rc = ([], Some e).
Proof.
  intros rc k c d e st' st'' Hk Hreads Hread He. unfold firstReads in Hreads.
  unfold getContent, getContent_exit.
  replace 7%nat with (k + S (6 - k))%nat by lia.
  rewrite (getContent_loop_after_reads _ _ k (S (6 - k)) 5 _ _ Hreads) by lia.
  cbn [getContent_loop].
  destruct (Z.ltb_spec (5 - Z.of_nat k) 0) as [Hneg|_]; [lia|].
  unfold callRead. rewrite Hread, He. reflexivity.
Qed.

Lemma getContent_read_error_witness :
  getContent (brokenReader errReset seven_bytes) = ([], Some errReset).
Proof.
  apply (@getContent_read_error (brokenReader errReset seven_bytes) 1
           seven_bytes [] errReset [] []).
  - lia.
  - vm_compute. reflexivity.
  - reflexivity.
  - reflexivity.
Defined.

(** X4.  Whatever the reader does, an error returned by [getContent]
    comes with an empty content and is never [io.EOF]. *)
Theorem getContent_error_empty :
  forall (rc : Reader) (c : list byte) (e : error),
    getContent rc = (c, Some e) ->
    c = [] /\ is_EOF e = false.
Proof.
  intros rc c e. unfold getContent.
  destruct (getContent_exit rc) as [c0|c0|e0 c0|] eqn:Hexit; intros Heq;
    try discriminate; injection Heq as <- <-; split; try reflexivity.
  unfold getContent_exit in Hexit.
  eapply getContent_loop_err_not_EOF. exact Hexit.
Qed.

Lemma getContent_error_empty_witness :
  (@nil byte) = [] /\ is_EOF errLimit = false.
Proof.
  apply (@getContent_error_empty (shortReader 1 seven_bytes) [] errLimit).
  vm_compute. reflexivity.
Defined.

End GetContentMore.

(** ** Further properties of the scan service *)

Module ServiceMore.

Import ServiceNotions Examples HelmResolveTest.

Lemma last_cons (A : Type) (l : list A) :
  forall a d, last (a :: l) d = last l a.
Proof.
  induction l as [|b l IH]; intros a d.
  - reflexivity.
  - change (last (a :: b :: l) d) with (last (b :: l) d).
    rewrite !IH. reflexivity.
Qed.

Lemma NoDup_map_injective (A B : Type) (f : A -> B) :
  (forall x y, f x = f y -> x = y) ->
  forall l, NoDup l -> NoDup (map f l).
Proof.
  intros Hinj. induction l as [|x l IH]; intros Hnd; simpl.
  - constructor.
  - inversion Hnd as [|? ? Hnotin Hrest]; subst. constructor.
    + intros Hin. apply in_map_iff in Hin. destruct Hin as [y [Heq Hy]].
      apply Hinj in Heq. subst. contradiction.
    + apply IH. exact Hrest.
Qed.

Lemma tally_injective : forall n m, uuidTally n = uuidTally m -> n = m.
Proof.
  unfold uuidTally. intros n m H. simpl in H.
  repeat (injection H as H).
  revert m H. induction n as [|n IH]; intros [|m] H; simpl in H;
    try discriminate; [reflexivity|].
  injection H as H. f_equal. apply IH. exact H.
Qed.

Section WithService.

Variable St : Type.
Variable SaveFile : St -> FileMetadata -> option error * St.
Variable SaveFileLeaves : St -> FileMetadata -> FileMetadata.
Variable Parse : string -> list byte -> list Document * FileKind * option error.
Variable ParseLeaves : string -> list byte -> list byte.
Variable GetType : string -> FileKind.
Variable Resolve : string -> FileKind -> RenderedFiles * option error.
Variable jsonMarshal : Document -> option error.
Variable uuid : nat -> string.

Local Abbreviation State := (ScanState St).
Local Abbreviation save := (saveToFile SaveFile SaveFileLeaves).
Local Abbreviation pDocs :=
  (parseDocuments SaveFile SaveFileLeaves jsonMarshal uuid).
Local Abbreviation pSink :=
  (parseSink SaveFile SaveFileLeaves Parse ParseLeaves jsonMarshal uuid).
Local Abbreviation rDocs :=
  (resolveDocuments SaveFile SaveFileLeaves ParseLeaves jsonMarshal uuid).
Local Abbreviation rFiles :=
  (resolveFiles SaveFile SaveFileLeaves Parse ParseLeaves jsonMarshal uuid).
Local Abbreviation rSink :=
  (resolveSink SaveFile SaveFileLeaves Parse ParseLeaves GetType Resolve
               jsonMarshal uuid).

(** *** The tracker and the identifier counter *)

Lemma counted_refl (s : State) : counted s s.
Proof. unfold counted. auto. Qed.

Lemma counted_trans (s1 s2 s3 : State) :
  counted s1 s2 -> counted s2 s3 -> counted s1 s3.
Proof. unfold counted. intros [? [? ?]] [? [? ?]]. repeat split; lia. Qed.

Lemma saveToFile_counted (file : FileMetadata) (s : State) :
  counted s (save file s).
Proof.
  unfold counted, saveToFile.
  destruct (SaveFile (storage s) file) as [[e|] st']; simpl;
    rewrite ?length_app; simpl; repeat split; lia.
Qed.

Lemma uuidNew_counted (s : State) : counted s (snd (uuidNew uuid s)).
Proof. unfold counted. simpl. repeat split; lia. Qed.

Lemma parseDocuments_counted (scanID filename : string) (content : list byte)
    (kind : FileKind) :
  forall documents err s,
    counted s (snd (pDocs scanID filename content kind documents err s)).
Proof.
  induction documents as [|document rest IH]; intros err s.
  - apply counted_refl.
  - simpl. destruct (jsonMarshal document) as [e|]; [apply IH|].
    eapply counted_trans; [|apply IH].
    eapply counted_trans; [apply uuidNew_counted|apply saveToFile_counted].
Qed.

Lemma resolveDocuments_counted (scanID : string) (kind : FileKind)
    (rfile : RenderedFile) :
  forall documents s, counted s (rDocs scanID kind rfile documents s).
Proof.
  induction documents as [|document rest IH]; intros s.
  - apply counted_refl.
  - simpl. destruct (jsonMarshal document) as [e|]; [apply IH|].
    eapply counted_trans; [|apply IH].
    eapply counted_trans; [apply uuidNew_counted|apply saveToFile_counted].
Qed.

Lemma resolveFiles_counted (scanID : string) (kind : FileKind) :
  forall rfiles s, counted s (snd (rFiles scanID kind rfiles s)).
Proof.
  induction rfiles as [|rfile rest IH]; intros s.
  - apply counted_refl.
  - simpl. destruct (Parse (rFileName rfile) (rContent rfile))
      as [[documents k] [e|]]; [apply counted_refl|].
    eapply counted_trans; [apply resolveDocuments_counted|apply IH].
Qed.

Lemma parseSink_counted (scanID filename : string) (rc : Reader) (s : State) :
  counted (TrackFileFound s) (snd (pSink scanID filename rc s)).
Proof.
  unfold parseSink. destruct (getContent rc) as [content [e|]];
    [apply counted_refl|].
  destruct (Parse filename content) as [[documents kind] [e|]];
    [apply counted_refl|].
  pose proof (parseDocuments_counted scanID filename
                (ParseLeaves filename content) kind documents
                None (TrackFileFound s)) as H.
  destruct (pDocs scanID filename (ParseLeaves filename content) kind
                  documents None (TrackFileFound s)) as [e1 s1].
  exact H.
Qed.

Lemma resolveSink_counted (scanID filename : string) (s : State) :
  counted (TrackFileFound s) (snd (rSink scanID filename s)).
Proof.
  unfold resolveSink.
  destruct (FileKind_eqb (GetType filename) KindCOMMON);
    [apply counted_refl|].
  destruct (Resolve filename (GetType filename)) as [rendering [e|]];
    [apply counted_refl|].
  apply resolveFiles_counted.
Qed.

(** X5.  Each call of a sink counts its file as found exactly once,
    whether the file is read, parsed, rendered and saved or not. *)
Theorem sinks_track_found_once :
  forall (scanID filename : string) (rc : Reader) (s : State),
    found (snd (parseSink SaveFile SaveFileLeaves Parse ParseLeaves
                          jsonMarshal uuid
                          scanID filename rc s)) = S (found s)
    /\ found (snd (resolveSink SaveFile SaveFileLeaves Parse ParseLeaves
                               GetType Resolve jsonMarshal uuid
                               scanID filename s)) = S (found s).
Proof.
  intros scanID filename rc s. split.
  - destruct (parseSink_counted scanID filename rc s) as [H _]. exact H.
  - destruct (resolveSink_counted scanID filename s) as [H _]. exact H.
Qed.

(** X6.  [TrackFileParse] is called once for each file that joins the
    list and never otherwise: in both sinks the parsed count grows by
    exactly the number of files added. *)
Theorem sinks_track_parsed_files :
  forall (scanID filename : string) (rc : Reader) (s : State),
    (parsed (snd (parseSink SaveFile SaveFileLeaves Parse ParseLeaves
                            jsonMarshal uuid
                            scanID filename rc s)) + length (files s)
     = parsed s
       + length (files (snd (parseSink SaveFile SaveFileLeaves Parse
                                       ParseLeaves jsonMarshal uuid
                                       scanID filename rc s))))%nat
    /\ (parsed (snd (resolveSink SaveFile SaveFileLeaves Parse ParseLeaves
                                 GetType Resolve jsonMarshal
                                 uuid scanID filename s)) + length (files s)
        = parsed s
          + length (files (snd (resolveSink SaveFile SaveFileLeaves Parse
                                            ParseLeaves GetType Resolve
                                            jsonMarshal uuid scanID filename
                                            s))))%nat.
Proof.
  intros scanID filename rc s. split.
  - destruct (parseSink_counted scanID filename rc s) as [_ [H _]]. exact H.
  - destruct (resolveSink_counted scanID filename s) as [_ [H _]]. exact H.
Qed.

(** *** Fresh identifiers *)

Lemma idsFresh_TrackFileFound (s : State) :
  idsFresh uuid s -> idsFresh uuid (TrackFileFound s).
Proof. intros Hs. exact Hs. Qed.

Lemma idsFresh_NoDup (s : State) :
  (forall n m, uuid n = uuid m -> n = m) ->
  idsFresh uuid s -> NoDup (map ID (files s)).
Proof.
  intros Hinj [ns [Hmap [Hnd _]]]. rewrite Hmap.
  apply NoDup_map_injective; assumption.
Qed.

Section KeptIdentifiers.

Hypothesis SaveFile_keeps_ID : keepsID SaveFileLeaves.

Lemma idsFresh_save (file : FileMetadata) (s : State) :
  ID file = uuid (ids s) ->
  idsFresh uuid s ->
  idsFresh uuid (save file (snd (uuidNew uuid s))).
Proof.
  intros Hid [ns [Hmap [Hnd Hlt]]]. unfold saveToFile. simpl.
  destruct (SaveFile (storage s) file) as [[e|] st']; simpl.
  - exists ns. repeat split; auto.
    eapply Forall_impl; [|exact Hlt]. simpl. intros n Hn. lia.
  - exists (ns ++ [ids s]). unfold idsFresh. simpl. repeat split.
    + rewrite !map_app, Hmap. simpl.
      rewrite SaveFile_keeps_ID, Hid. reflexivity.
    + apply NoDup_app; [exact Hnd|repeat constructor; auto|].
      intros n Hin [<-|[]]. rewrite Forall_forall in Hlt.
      apply Hlt in Hin. lia.
    + apply Forall_app. split.
      * eapply Forall_impl; [|exact Hlt]. simpl. intros n Hn. lia.
      * repeat constructor.
Qed.

Lemma parseDocuments_idsFresh (scanID filename : string) (content : list byte)
    (kind : FileKind) :
  forall documents err s,
    idsFresh uuid s ->
    idsFresh uuid (snd (pDocs scanID filename content kind documents err s)).
Proof.
  induction documents as [|document rest IH]; intros err s Hs.
  - exact Hs.
  - simpl. destruct (jsonMarshal document) as [e|]; [apply IH; exact Hs|].
    apply IH. apply idsFresh_save; [reflexivity|exact Hs].
Qed.

Lemma resolveDocuments_idsFresh (scanID : string) (kind : FileKind)
    (rfile : RenderedFile) :
  forall documents s,
    idsFresh uuid s ->
    idsFresh uuid (rDocs scanID kind rfile documents s).
Proof.
  induction documents as [|document rest IH]; intros s Hs.
  - exact Hs.
  - simpl. destruct (jsonMarshal document) as [e|]; [apply IH; exact Hs|].
    apply IH. apply idsFresh_save; [reflexivity|exact Hs].
Qed.

Lemma resolveFiles_idsFresh (scanID : string) (kind : FileKind) :
  forall rfiles s,
    idsFresh uuid s ->
    idsFresh uuid (snd (rFiles scanID kind rfiles s)).
Proof.
  induction rfiles as [|rfile rest IH]; intros s Hs.
  - exact Hs.
  - simpl. destruct (Parse (rFileName rfile) (rContent rfile))
      as [[documents k] [e|]]; [exact Hs|].
    apply IH. apply resolveDocuments_idsFresh. exact Hs.
Qed.

(** X7.  Every file gets an identifier of its own call of [uuid.New].
    With a storage that leaves the [ID] of the struct it is handed as
    it is: when the identifiers in the list come from distinct earlier
    calls, they still do after either sink, and so, as long as
    [uuid.New] never returns the same value twice, no two files of the
    list share an [ID]. *)
Theorem sinks_keep_ids_unique :
  forall (scanID filename : string) (rc : Reader) (s : State),
    idsFresh uuid s ->
    (idsFresh uuid (snd (parseSink SaveFile SaveFileLeaves Parse ParseLeaves
                                   jsonMarshal uuid scanID filename rc s))
     /\ idsFresh uuid (snd (resolveSink SaveFile SaveFileLeaves Parse
                                        ParseLeaves GetType Resolve
                                        jsonMarshal uuid scanID filename s)))
    /\ ((forall n m, uuid n = uuid m -> n = m) ->
        NoDup (map ID (files (snd (parseSink SaveFile SaveFileLeaves Parse
                                             ParseLeaves jsonMarshal uuid
                                             scanID filename rc s))))
        /\ NoDup (map ID (files (snd (resolveSink SaveFile SaveFileLeaves
                                                  Parse ParseLeaves GetType
                                                  Resolve jsonMarshal uuid
                                                  scanID filename s))))).
Proof.
  intros scanID filename rc s Hs.
  assert (Hp : idsFresh uuid (snd (pSink scanID filename rc s))).
  { unfold parseSink. destruct (getContent rc) as [content [e|]];
      [exact Hs|].
    destruct (Parse filename content) as [[documents kind] [e|]];
      [exact Hs|].
    pose proof (parseDocuments_idsFresh scanID filename
                  (ParseLeaves filename content) kind
                  documents None (idsFresh_TrackFileFound Hs)) as H.
    destruct (pDocs scanID filename (ParseLeaves filename content) kind
                    documents None (TrackFileFound s)) as [e1 s1].
    exact H. }
  assert (Hr : idsFresh uuid (snd (rSink scanID filename s))).
  { unfold resolveSink.
    destruct (FileKind_eqb (GetType filename) KindCOMMON); [exact Hs|].
    destruct (Resolve filename (GetType filename)) as [rendering [e|]];
      [exact Hs|].
    apply resolveFiles_idsFresh. exact Hs. }
  split; [split; assumption|].
  intros Hinj. split; apply idsFresh_NoDup; assumption.
Qed.

End KeptIdentifiers.

(** *** The parse sink *)

(** X8.  A file of more than 5 MiB never reaches the parser: the parse
    sink returns [failed to get file content: <filename>] around
    [file size limit exceeded] and leaves the list, the storage and
    the parsed count as they were. *)
Theorem parseSink_oversize :
  forall (scanID filename : string) (bs : list byte) (s : State),
    (maxSize < length bs)%nat ->
    parseSink SaveFile SaveFileLeaves Parse ParseLeaves jsonMarshal uuid
              scanID filename (fileReader bs) s
      = (Some (WithMessage ("failed to get file content: " +++ filename)
                           errLimit),
         TrackFileFound s).
Proof.
  intros scanID filename bs s Hbig. unfold parseSink, getContent.
  rewrite GetContentFacts.getContent_exit_file.
  destruct (Nat.leb_spec (length bs) maxSize); [lia|reflexivity].
Qed.

Lemma parseDocuments_error (scanID filename : string) (content : list byte)
    (kind : FileKind) :
  forall documents err s,
    fst (pDocs scanID filename content kind documents err s)
      = match documents with
        | [] => err
        | d :: ds => jsonMarshal (last ds d)
        end.
Proof.
  induction documents as [|document rest IH]; intros err s.
  - reflexivity.
  - simpl. destruct (jsonMarshal document) as [e|] eqn:Hm; rewrite IH;
      destruct rest as [|d ds]; try (symmetry; exact Hm);
      rewrite last_cons; reflexivity.
Qed.

(** X9.  Once a file is read and parsed, the error the parse sink
    returns is what [json.Marshal] returned on the last document,
    wrapped as [failed to save file content]: nil when the last
    document can be marshalled, whatever happened to the documents
    before it and to the storage. *)
Theorem parseSink_returns_last_marshal_error :
  forall (scanID filename : string) (rc : Reader) (s : State)
         (content : list byte) (documents : list Document) (kind : FileKind),
    getContent rc = (content, None) ->
    Parse filename content = (documents, kind, None) ->
    fst (parseSink SaveFile SaveFileLeaves Parse ParseLeaves jsonMarshal uuid
                   scanID filename rc s)
      = Wrap (lastMarshalError jsonMarshal documents)
             "failed to save file content".
Proof.
  intros scanID filename rc s content documents kind Hread Hparse.
  unfold parseSink. rewrite Hread, Hparse.
  pose proof (parseDocuments_error scanID filename
                (ParseLeaves filename content) kind documents
                None (TrackFileFound s)) as H.
  destruct (pDocs scanID filename (ParseLeaves filename content) kind
                  documents None (TrackFileFound s)) as [e1 s1].
  simpl in *. rewrite H. destruct documents; reflexivity.
Qed.

(** *** The resolve sink *)

Lemma resolveFiles_error_iff (scanID : string) (kind : FileKind) :
  forall rfiles s,
    fst (rFiles scanID kind rfiles s) = None <->
    Forall (parses Parse) rfiles.
Proof.
  induction rfiles as [|rfile rest IH]; intros s.
  - simpl. split; auto.
  - simpl. destruct (Parse (rFileName rfile) (rContent rfile))
      as [[documents k] [e|]] eqn:Hparse.
    + simpl. split; [discriminate|].
      intros Hall. inversion Hall as [|? ? Hrf _]; subst.
      unfold parses in Hrf. rewrite Hparse in Hrf. discriminate.
    + rewrite IH. split.
      * intros Hrest. constructor; [|exact Hrest].
        unfold parses. rewrite Hparse. reflexivity.
      * intros Hall. inversion Hall; subst. assumption.
Qed.

(** X10.  For a chart that is rendered, the resolve sink returns nil
    exactly when the parser accepts every rendered file; a document
    that cannot be marshalled or saved never makes it return an
    error. *)
Theorem resolveSink_nil_iff_parses :
  forall (scanID filename : string) (s : State) (rendering : RenderedFiles),
    FileKind_eqb (GetType filename) KindCOMMON = false ->
    Resolve filename (GetType filename) = (rendering, None) ->
    (fst (resolveSink SaveFile SaveFileLeaves Parse ParseLeaves GetType
                      Resolve jsonMarshal uuid
                      scanID filename s) = None
     <-> Forall (parses Parse) (File rendering)).
Proof.
  intros scanID filename s rendering Hkind Hres. unfold resolveSink.
  rewrite Hkind, Hres. apply resolveFiles_error_iff.
Qed.

(** *** With a storage that accepts every file and only reads it *)

Section AcceptingStorage.

Hypothesis SaveFile_accepts : forall st f, fst (SaveFile st f) = None.
Hypothesis SaveFile_reads : readsOnly SaveFileLeaves.

Lemma saveToFile_accepted (file : FileMetadata) (s : State) :
  files (save file s) = files s ++ [file].
Proof.
  rewrite ServiceFacts.saveToFile_files, SaveFile_accepts, SaveFile_reads.
  reflexivity.
Qed.

Lemma parseDocuments_saved (scanID filename : string) (content : list byte)
    (kind : FileKind) :
  forall documents err s,
    exists added,
      files (snd (pDocs scanID filename content kind documents err s))
        = files s ++ added
      /\ map Document_ added = filter (marshals jsonMarshal) documents
      /\ Forall (fun f =>
                   ScanID f = scanID /\ FileName f = filename
                   /\ Kind f = kind
                   /\ OriginalData f = string_of_list_byte content) added.
Proof.
  induction documents as [|document rest IH]; intros err s.
  - exists []. simpl. rewrite app_nil_r. auto.
  - simpl. unfold marshals at 1.
    destruct (jsonMarshal document) as [e|]; [apply IH|].
    set (file := mkFileMetadata (uuid (ids s)) scanID document
                   (string_of_list_byte content) kind filename
                   EmptyString EmptyString []).
    destruct (IH None (save file (snd (uuidNew uuid s))))
      as [added [Heq [Hdocs Hall]]].
    exists (file :: added). split; [|split].
    + simpl in Heq. simpl. rewrite Heq, saveToFile_accepted.
      simpl. rewrite <- app_assoc. reflexivity.
    + simpl. rewrite Hdocs. reflexivity.
    + constructor; [simpl; auto|exact Hall].
Qed.

Lemma resolveDocuments_saved (scanID : string) (kind : FileKind)
    (rfile : RenderedFile) :
  forall documents s,
    exists added,
      files (rDocs scanID kind rfile documents s) = files s ++ added
      /\ map (fun f => (FileName f, Document_ f)) added
           = map (pair (rFileName rfile))
                 (filter (marshals jsonMarshal) documents).
Proof.
  induction documents as [|document rest IH]; intros s.
  - exists []. simpl. rewrite app_nil_r. auto.
  - simpl. unfold marshals at 1.
    destruct (jsonMarshal document) as [e|]; [apply IH|].
    set (file := mkFileMetadata (uuid (ids s)) scanID document
                   (string_of_list_byte (rOriginalData rfile)) kind
                   (rFileName rfile)
                   (string_of_list_byte
                      (ParseLeaves (rFileName rfile) (rContent rfile)))
                   (SplitID rfile) (rIDInfo rfile)).
    destruct (IH (save file (snd (uuidNew uuid s)))) as [added [Heq Hdocs]].
    exists (file :: added). split.
    + simpl in Heq. simpl. rewrite Heq, saveToFile_accepted.
      simpl. rewrite <- app_assoc. reflexivity.
    + simpl. rewrite Hdocs. reflexivity.
Qed.

Lemma resolveFiles_saved (scanID : string) (kind : FileKind) :
  forall rfiles s,
    Forall (parses Parse) rfiles ->
    exists added,
      files (snd (rFiles scanID kind rfiles s)) = files s ++ added
      /\ map (fun f => (FileName f, Document_ f)) added
           = flat_map (fun rfile =>
                         map (pair (rFileName rfile))
                             (filter (marshals jsonMarshal)
                                     (documentsOf Parse rfile)))
                      rfiles.
Proof.
  induction rfiles as [|rfile rest IH]; intros s Hok.
  - exists []. simpl. rewrite app_nil_r. auto.
  - inversion Hok as [|? ? Hrf Hrest]; subst.
    unfold parses in Hrf. simpl. unfold documentsOf at 1.
    destruct (Parse (rFileName rfile) (rContent rfile))
      as [[documents k] [e|]]; [discriminate|]. simpl.
    destruct (resolveDocuments_saved scanID kind rfile documents s)
      as [added1 [Heq1 Hdocs1]].
    destruct (IH (rDocs scanID kind rfile documents s) Hrest)
      as [added2 [Heq2 Hdocs2]].
    exists (added1 ++ added2). split.
    + rewrite Heq2, Heq1, app_assoc. reflexivity.
    + rewrite map_app, Hdocs1, Hdocs2. reflexivity.
Qed.

(** X11.  With a storage that accepts every file and does not write to
    the struct it is handed, the parse sink adds one file for each
    document that can be marshalled, in the order of the documents and
    nothing else; each carries the scan id, the file name, the kind the
    parser returned and, as [OriginalData], the text of the slice as
    the parser left it. *)
Theorem parseSink_saves_marshalled_documents :
  forall (scanID filename : string) (rc : Reader) (s : State)
         (content : list byte) (documents : list Document) (kind : FileKind),
    getContent rc = (content, None) ->
    Parse filename content = (documents, kind, None) ->
    exists added,
      files (snd (parseSink SaveFile SaveFileLeaves Parse ParseLeaves
                            jsonMarshal uuid
                            scanID filename rc s)) = files s ++ added
      /\ map Document_ added = filter (marshals jsonMarshal) documents
      /\ Forall (fun f =>
                   ScanID f = scanID /\ FileName f = filename
                   /\ Kind f = kind
                   /\ OriginalData f
                      = string_of_list_byte (ParseLeaves filename content))
                added.
Proof.
  intros scanID filename rc s content documents kind Hread Hparse.
  unfold parseSink. rewrite Hread, Hparse.
  destruct (parseDocuments_saved scanID filename
              (ParseLeaves filename content) kind documents None
              (TrackFileFound s)) as [added H].
  exists added.
  destruct (pDocs scanID filename (ParseLeaves filename content) kind
                  documents None (TrackFileFound s)) as [e1 s1].
  exact H.
Qed.

(** X12.  With a storage that accepts every file and does not write to
    the struct it is handed, and a chart whose rendered files all
    parse, the resolve sink adds, rendered file after rendered file,
    one file for each of its documents that can be marshalled, under
    the name of the template. *)
Theorem resolveSink_saves_rendered_documents :
  forall (scanID filename : string) (s : State) (rendering : RenderedFiles),
    FileKind_eqb (GetType filename) KindCOMMON = false ->
    Resolve filename (GetType filename) = (rendering, None) ->
    Forall (parses Parse) (File rendering) ->
    exists added,
      files (snd (resolveSink SaveFile SaveFileLeaves Parse ParseLeaves
                              GetType Resolve jsonMarshal uuid
                              scanID filename s)) = files s ++ added
      /\ map (fun f => (FileName f, Document_ f)) added
           = flat_map (fun rfile =>
                         map (pair (rFileName rfile))
                             (filter (marshals jsonMarshal)
                                     (documentsOf Parse rfile)))
                      (File rendering).
Proof.
  intros scanID filename s rendering Hkind Hres Hok. unfold resolveSink.
  rewrite Hkind, Hres.
  apply (resolveFiles_saved scanID (GetType filename) (TrackFileFound s) Hok).
Qed.

End AcceptingStorage.

End WithService.

(** *** The theorems at concrete collaborators *)

Lemma idsFresh_start : idsFresh uuidTally start.
Proof. exists []. repeat split; constructor. Qed.

Lemma sinks_keep_ids_unique_witness :
  NoDup (map ID (files (snd (parseSink saveFileOk keepFile parseTwo keepBytes
                                       marshalOk uuidTally
                                       "console" "main.tf"
                                       (fileReader main_tf) start))))
  /\ NoDup (map ID (files (snd (resolveSink saveFileOk keepFile parseTwo
                                  keepBytes helmType
                                  (resolveTo want_test_with_dependecies)
                                  marshalOk uuidTally "console"
                                  "test_helm_subchart" start)))).
Proof.
  apply (@sinks_keep_ids_unique Store saveFileOk keepFile parseTwo keepBytes
           helmType (resolveTo want_test_with_dependecies) marshalOk
           uuidTally (fun st f => eq_refl)
           "console" "main.tf" (fileReader main_tf) start).
  - exact idsFresh_start.
  - exact tally_injective.
Defined.

Lemma parseSink_oversize_witness :
  parseSink saveFileOk keepFile parseOne keepBytes marshalOk uuidOf
            "console" "big.tf"
            (fileReader (repeat "0"%byte (S maxSize))) start
    = (Some (WithMessage "failed to get file content: big.tf" errLimit),
       TrackFileFound start).
Proof.
  apply (@parseSink_oversize Store saveFileOk keepFile parseOne keepBytes
           marshalOk uuidOf
           "console" "big.tf" (repeat "0"%byte (S maxSize)) start).
  rewrite repeat_length. apply Nat.lt_succ_diag_r.
Defined.

Lemma parseSink_returns_last_marshal_error_witness :
  fst (parseSink saveFileOk keepFile parseTwo keepBytes marshalUnlessService
                 uuidOf "console" "main.tf" (fileReader main_tf) start)
    = Some (WithMessage "failed to save file content" errMarshal).
Proof.
  apply (@parseSink_returns_last_marshal_error Store saveFileOk keepFile
           parseTwo keepBytes
           marshalUnlessService uuidOf "console" "main.tf"
           (fileReader main_tf) start main_tf [pod; service] KindKubernetes).
  - vm_compute. reflexivity.
  - reflexivity.
Defined.

Lemma resolveSink_nil_iff_parses_witness :
  fst (resolveSink saveFileOk keepFile (parseUnless subchart_service)
                   keepBytes helmType
                   (resolveTo want_test_with_dependecies) marshalOk uuidOf
                   "console" "test_helm_subchart" start) = None
  <-> Forall (parses (parseUnless subchart_service))
             (File want_test_with_dependecies).
Proof.
  apply (@resolveSink_nil_iff_parses Store saveFileOk keepFile
           (parseUnless subchart_service) keepBytes helmType
           (resolveTo want_test_with_dependecies) marshalOk uuidOf
           "console" "test_helm_subchart" start want_test_with_dependecies);
    reflexivity.
Defined.

Lemma parseSink_saves_marshalled_documents_witness :
  exists added,
    files (snd (parseSink saveFileOk keepFile parseTwo keepBytes
                          marshalUnlessService uuidOf
                          "console" "main.tf" (fileReader main_tf) start))
      = files start ++ added
    /\ map Document_ added = [pod]
    /\ Forall (fun f =>
                 ScanID f = "console" /\ FileName f = "main.tf"
                 /\ Kind f = KindKubernetes
                 /\ OriginalData f = string_of_list_byte main_tf) added.
Proof.
  apply (@parseSink_saves_marshalled_documents Store saveFileOk keepFile
           parseTwo keepBytes
           marshalUnlessService uuidOf (fun st f => eq_refl)
           (fun st f => eq_refl)
           "console" "main.tf" (fileReader main_tf) start main_tf
           [pod; service] KindKubernetes).
  - vm_compute. reflexivity.
  - reflexivity.
Defined.

Lemma resolveSink_saves_rendered_documents_witness :
  exists added,
    files (snd (resolveSink saveFileOk keepFile parseTwo keepBytes helmType
                            (resolveTo want_test_resolve_helm)
                            marshalUnlessService uuidOf
                            "console" "test_helm" start))
      = files start ++ added
    /\ map (fun f => (FileName f, Document_ f)) added
         = [("../../../test/fixtures/test_helm/templates/service.yaml", pod)].
Proof.
  apply (@resolveSink_saves_rendered_documents Store saveFileOk keepFile
           parseTwo keepBytes
           helmType (resolveTo want_test_resolve_helm) marshalUnlessService
           uuidOf (fun st f => eq_refl) (fun st f => eq_refl)
           "console" "test_helm" start
           want_test_resolve_helm).
  - reflexivity.
  - reflexivity.
  - repeat constructor.
Defined.

End ServiceMore.

(** ** A further property of the CloudFront TLS policy *)

Module CloudFrontMore.

Import CloudFrontPolicy.

(** X13.  The policy reports nothing else: every result of [CxPolicy]
    comes from a distribution of a document of the input whose
    [viewer_certificate.cloudfront_default_certificate] is the boolean
    [false] and whose [minimum_protocol_version] is neither ["TLSv1.1"]
    nor ["TLSv1.2"]; it carries the [id] of that document, the issue
    type [IncorrectValue] and the search key built from the name of the
    distribution. *)
Theorem CxPolicy_sound :
  forall (sprintOther : Value -> string) (input : Value) (r : Result),
    In r (CxPolicy sprintOther input) ->
    exists documents i document name resource,
      field "document" input = Some documents
      /\ In (i, document) (iterate documents)
      /\ In (name, resource) (distributions document)
      /\ field "id" document = Some (documentId r)
      /\ path ["viewer_certificate"; "cloudfront_default_certificate"]
              resource = Some (VBool false)
      /\ path ["viewer_certificate"; "minimum_protocol_version"] resource
           <> Some (VString "TLSv1.1")
      /\ path ["viewer_certificate"; "minimum_protocol_version"] resource
           <> Some (VString "TLSv1.2")
      /\ issueType r = "IncorrectValue"
      /\ searchKey r
           = "resource.aws_cloudfront_distribution["
               +++ sprint sprintOther name +++ "]." +++ keySuffix.
Proof.
  intros sprintOther input r Hin.
  destruct (field "document" input) as [documents|] eqn:Hdocs.
  2: { unfold CxPolicy in Hin. rewrite Hdocs in Hin. contradiction. }
  apply (@CloudFrontFacts.In_CxPolicy sprintOther input documents r Hdocs)
    in Hin.
  destruct Hin as [i [document [name [resource [Hi [Hname Hbody]]]]]].
  apply CloudFrontFacts.CxPolicy_body_Some in Hbody.
  destruct Hbody as [version [id [Hcert [Hversion [H1 [H2 [Hid ->]]]]]]].
  exists documents, i, document, name, resource.
  cbn [documentId issueType searchKey]. rewrite Hversion.
  repeat split; auto; intros H; injection H; auto.
Qed.

Lemma CxPolicy_sound_witness :
  exists documents i document name resource,
    field "document" (inputWith (VString "TLSv1")) = Some documents
    /\ In (i, document) (iterate documents)
    /\ In (name, resource) (distributions document)
    /\ field "id" document = Some (VString "doc-1")
    /\ path ["viewer_certificate"; "cloudfront_default_certificate"]
            resource = Some (VBool false)
    /\ path ["viewer_certificate"; "minimum_protocol_version"] resource
         <> Some (VString "TLSv1.1")
    /\ path ["viewer_certificate"; "minimum_protocol_version"] resource
         <> Some (VString "TLSv1.2")
    /\ "IncorrectValue" = "IncorrectValue"
    /\ "resource.aws_cloudfront_distribution[positive1].viewer_certificate.minimum_protocol_version"
         = "resource.aws_cloudfront_distribution["
             +++ sprint sprintNothing name +++ "]." +++ keySuffix.
Proof.
  apply (@CxPolicy_sound sprintNothing (inputWith (VString "TLSv1"))
           (mkResult
              (VString "doc-1")
              "resource.aws_cloudfront_distribution[positive1].viewer_certificate.minimum_protocol_version"
              "IncorrectValue"
              "resource.aws_cloudfront_distribution[positive1].viewer_certificate.minimum_protocol_version is TLSv1.1 or TLSv1.2"
              "resource.aws_cloudfront_distribution[positive1].viewer_certificate.minimum_protocol_version isn't TLSv1.1 or TLSv1.2")).
  left. reflexivity.
Defined.

End CloudFrontMore.
